(** * Dual-subtitle embedder: command construction and drop routing

    A shallow embedding of [dual_subtitle_embedder_python_ffmpeg.py].
    Python [str] values are Rocq [string]s (the UTF-8 bytes of the text),
    Python [int]s are [Z], the [VID_EXTS] set is a [gset string], and
    everything the program asks of its host (the search path, the file
    system, the child process, the flavour of its paths) is an explicit
    oracle. *)

From Stdlib Require Import ZArith NArith Ascii String List Lia DecimalString.
From stdpp Require Import base decidable option list gmap strings.

Local Open Scope string_scope.
Local Open Scope list_scope.

#[local] Arguments String.append !s1 s2 : simpl nomatch.

(** ** The [str] methods the program calls *)

Module PyStr.

(** [s.startswith(pre)]. *)
Fixpoint startswith (s pre : string) {struct pre} : bool :=
  match pre with
  | EmptyString => true
  | String a pre' =>
      match s with
      | EmptyString => false
      | String b s' => Ascii.eqb a b && startswith s' pre'
      end
  end.

(** [old in s] for strings: some suffix of [s] starts with [old]. *)
Fixpoint contains (old s : string) : bool :=
  startswith s old ||
  match s with
  | EmptyString => false
  | String _ s' => contains old s'
  end.

(** [s.replace(old, new)] for a non-empty [old]: the occurrences are
    taken left to right and do not overlap.  [skip] counts the characters
    of a matched occurrence that are still to be dropped. *)
Fixpoint replace_go (old new : string) (skip : nat) (s : string) : string :=
  match s with
  | EmptyString => EmptyString
  | String c s' =>
      match skip with
      | S k => replace_go old new k s'
      | O =>
          if startswith s old
          then new +:+ replace_go old new (String.length old - 1) s'
          else String c (replace_go old new 0 s')
      end
  end.

Definition replace (old new s : string) : string := replace_go old new 0 s.

(** The bytes of a text, from their codes. *)
Fixpoint bytes (codes : list N) : string :=
  match codes with
  | [] => EmptyString
  | n :: rest => String (ascii_of_N n) (bytes rest)
  end.

(** The two characters outside ASCII whose lower-case form has an ASCII
    letter: the Kelvin sign U+212A, which lowers to [k], and the dotted
    capital I U+0130, which lowers to [i] followed by the combining dot
    U+0307. *)
Definition KELVIN : string := Eval cbv in bytes [226; 132; 170]%N.
Definition DOTTED_I : string := Eval cbv in bytes [196; 176]%N.
Definition I_DOT : string := Eval cbv in bytes [105; 204; 135]%N.

Definition lower_char (c : ascii) : ascii :=
  let n := N_of_ascii c in
  if ((65 <=? n) && (n <=? 90))%N then ascii_of_N (n + 32) else c.

(** [s.lower()], as far as ASCII can tell: the letters A to Z are mapped to
    a to z, the two characters above are mapped as Python maps them, and
    every other byte is kept.  Python lowers other characters too, always
    to characters outside ASCII, so a lowered string equals or contains a
    given ASCII string in Python exactly when it does here: every test the
    program makes on a lowered string (a mode name, an extension, the hint
    [vi]) has the result it has in Python.  [skip] counts the bytes of a
    matched character still to be dropped. *)
Fixpoint lower_go (skip : nat) (s : string) : string :=
  match s with
  | EmptyString => EmptyString
  | String c s' =>
      match skip with
      | S k => lower_go k s'
      | O =>
          if startswith s DOTTED_I then I_DOT +:+ lower_go 1 s'
          else if startswith s KELVIN then "k" +:+ lower_go 2 s'
          else String (lower_char c) (lower_go 0 s')
      end
  end.

Definition lower (s : string) : string := lower_go 0 s.

(** [c.isspace()] for an ASCII character: tab, line feed, vertical tab,
    form feed, carriage return, the four separators 28 to 31 and the
    space. *)
Definition isspace (c : ascii) : bool :=
  let n := N_of_ascii c in
  (((9 <=? n) && (n <=? 13)) || ((28 <=? n) && (n <=? 32)))%N.

(** The white space outside ASCII, in UTF-8: U+0085, U+00A0, U+1680,
    U+2000 to U+200A, U+2028, U+2029, U+202F, U+205F and U+3000. *)
Definition BLANKS : list string :=
  Eval cbv in
    map bytes
      [[194; 133]; [194; 160]; [225; 154; 128];
       [226; 128; 128]; [226; 128; 129]; [226; 128; 130]; [226; 128; 131];
       [226; 128; 132]; [226; 128; 133]; [226; 128; 134]; [226; 128; 135];
       [226; 128; 136]; [226; 128; 137]; [226; 128; 138];
       [226; 128; 168]; [226; 128; 169]; [226; 128; 175];
       [226; 129; 159]; [227; 128; 128]]%N.

(** The number of bytes of the white-space character [s] starts with, 0
    when it starts with none. *)
Definition blank_len (s : string) : nat :=
  match s with
  | EmptyString => 0
  | String c _ =>
      if isspace c then 1
      else match List.find (startswith s) BLANKS with
           | Some b => String.length b
           | None => 0
           end
  end.

(** [s.lstrip()]. *)
Fixpoint lstrip_go (skip : nat) (s : string) : string :=
  match s with
  | EmptyString => EmptyString
  | String _ s' =>
      match skip with
      | S k => lstrip_go k s'
      | O =>
          match blank_len s with
          | O => s
          | S n => lstrip_go n s'
          end
      end
  end.

Definition lstrip (s : string) : string := lstrip_go 0 s.

(** [s] is made of white space only. *)
Fixpoint all_blank_go (skip : nat) (s : string) : bool :=
  match s with
  | EmptyString => Nat.eqb skip 0
  | String _ s' =>
      match skip with
      | S k => all_blank_go k s'
      | O =>
          match blank_len s with
          | O => false
          | S n => all_blank_go n s'
          end
      end
  end.

(** [s.rstrip()]: a byte is kept unless only white space follows from
    it on. *)
Fixpoint rstrip (s : string) : string :=
  match s with
  | EmptyString => EmptyString
  | String c s' => if all_blank_go 0 s then EmptyString else String c (rstrip s')
  end.

Definition strip (s : string) : string := rstrip (lstrip s).

(** [s.split(sep)] for a one-character separator. *)
Fixpoint split (sep : ascii) (s : string) : list string :=
  match s with
  | EmptyString => [EmptyString]
  | String c s' =>
      if decide (c = sep) then EmptyString :: split sep s'
      else match split sep s' with
           | [] => [String c EmptyString]
           | h :: t => String c h :: t
           end
  end.

(** [sep.join(parts)]. *)
Fixpoint join (sep : string) (parts : list string) : string :=
  match parts with
  | [] => EmptyString
  | [p] => p
  | p :: rest => p +:+ sep +:+ join sep rest
  end.

(** [s.rfind(c)] for a single character: the last index of [c], if any
    (None where Python returns -1). *)
Fixpoint rfind (c : ascii) (s : string) : option nat :=
  match s with
  | EmptyString => None
  | String a s' =>
      match rfind c s' with
      | Some i => Some (S i)
      | None => if decide (a = c) then Some 0 else None
      end
  end.

(** [s[:i]] and [s[i:]] for [0 <= i]. *)
Fixpoint take (i : nat) (s : string) : string :=
  match i, s with
  | S k, String c s' => String c (take k s')
  | _, _ => EmptyString
  end.

Fixpoint drop (i : nat) (s : string) : string :=
  match i, s with
  | S k, String _ s' => drop k s'
  | _, _ => s
  end.

(** [s.endswith(suf)]. *)
Definition endswith (s suf : string) : bool :=
  startswith (String.rev s) (String.rev suf).

(** [str(n)], which is also how an f-string renders an [int]. *)
Definition of_int (n : Z) : string := NilEmpty.string_of_int (Z.to_int n).

End PyStr.

Module PyText.

(** [s.split(sep)] for a non-empty string [sep]: the occurrences are taken
    left to right and do not overlap.  [skip] counts the characters of a
    matched separator still to be dropped, [cur] is the piece being read. *)
Fixpoint split_go (sep : string) (skip : nat) (cur s : string) : list string :=
  match s with
  | EmptyString => [cur]
  | String c s' =>
      match skip with
      | S k => split_go sep k cur s'
      | O =>
          if PyStr.startswith s sep
          then cur :: split_go sep (String.length sep - 1) "" s'
          else split_go sep 0 (cur +:+ String c "") s'
      end
  end.

Definition split_str (sep s : string) : list string := split_go sep 0 "" s.

(** [s.split()]: the maximal runs of characters that are no white space.
    [skip] counts the bytes of a white-space character still to be
    dropped. *)
Fixpoint words_go (skip : nat) (cur s : string) : list string :=
  match s with
  | EmptyString => if String.eqb cur "" then [] else [cur]
  | String c s' =>
      match skip with
      | S k => words_go k cur s'
      | O =>
          match PyStr.blank_len s with
          | O => words_go 0 (cur +:+ String c "") s'
          | S n =>
              if String.eqb cur "" then words_go n "" s'
              else cur :: words_go n "" s'
          end
      end
  end.

Definition words (s : string) : list string := words_go 0 "" s.

End PyText.

(** ** [pathlib.Path] on a POSIX host

    The parsed form of [PurePosixPath]: a root and the components after
    it.  [suffix] and [stem] follow the definition pathlib had up to
    Python 3.13 (a dot counts when it is neither the first nor the last
    character of the name). *)

Module PurePath.

Record t : Type := mk { root : string; tail : list string }.

(** [posixpath.splitroot]: exactly two leading slashes are a root of
    their own, one or at least three are the root [/]. *)
Definition splitroot (p : string) : string * string :=
  if negb (PyStr.startswith p "/") then ("", p)
  else if negb (PyStr.startswith (PyStr.drop 1 p) "/")
          || PyStr.startswith (PyStr.drop 2 p) "/"
  then ("/", PyStr.drop 1 p)
  else ("//", PyStr.drop 2 p).

Definition kept (x : string) : bool :=
  negb (String.eqb x "") && negb (String.eqb x ".").

Definition parse (p : string) : t :=
  let '(rt, rel) := splitroot p in
  mk rt (List.filter kept (PyStr.split "/" rel)).

Definition name (p : t) : string := List.last (tail p) "".

(** The index of the dot that starts the suffix, if the name has one. *)
Definition suffix_index (n : string) : option nat :=
  match PyStr.rfind "." n with
  | Some i =>
      if Nat.ltb 0 i && Nat.ltb i (String.length n - 1) then Some i else None
  | None => None
  end.

Definition suffix (p : t) : string :=
  match suffix_index (name p) with
  | Some i => PyStr.drop i (name p)
  | None => ""
  end.

Definition stem (p : t) : string :=
  match suffix_index (name p) with
  | Some i => PyStr.take i (name p)
  | None => name p
  end.

(** [p / seg]: an absolute [seg] replaces [p], any other is appended. *)
Definition joinpath (p : t) (seg : string) : t :=
  let q := parse seg in
  if String.eqb (root q) "" then mk (root p) (tail p ++ tail q) else q.


(** [str(p)]. *)
Definition to_str (p : t) : string :=
  match root p, tail p with
  | EmptyString, [] => "."
  | rt, tl => rt +:+ PyStr.join "/" tl
  end.

End PurePath.

(** ** Exceptions *)

(** The exceptions the program meets; each carries what [str(e)] gives. *)
Inductive exception : Type :=
| FileNotFoundError (msg : string)
| OSError (msg : string)
| UnicodeDecodeError (msg : string).

Inductive result (A : Type) : Type :=
| Ok (a : A)
| Raise (e : exception).

Arguments Ok {A} a.
Arguments Raise {A} e.

Definition bind {A B : Type} (r : result A) (k : A -> result B) : result B :=
  match r with
  | Ok a => k a
  | Raise e => Raise e
  end.

Notation "'attempt' x <- r 'in' k" := (bind r (fun x => k))
  (at level 10, x name, r at level 100, k at level 200).

(** ** The host

    What the program reads from its environment.  [which] is
    [shutil.which], [system] is [platform.system()], [exists], [isfile]
    and [isdir] are the file-system tests, [home] is [Path.home()].
    [popen] is the run of the child process started with an argument list,
    from [subprocess.Popen] to [proc.wait()]: the exit status, or the
    exception that ends the run ([OSError] when the child cannot be started,
    [UnicodeDecodeError] when its error stream is no text). *)

Record Host : Type := {
  which : string -> option string;
  system : string;
  exists_ : string -> bool;
  isfile : string -> bool;
  isdir : string -> bool;
  home : string;
  popen : list string -> result Z
}.

(** [pathlib.Path] is [WindowsPath] on Windows and [PosixPath] elsewhere. *)
Definition on_windows (h : Host) : bool := String.eqb (system h) "Windows".

(** The Windows flavour of pathlib is not modelled: what it gives for
    [Path(p).name], [Path(p).suffix], [Path(p).stem] and [str(Path(d) / seg)]
    is taken from here. *)
Record WinPaths : Type := {
  win_name : string -> string;
  win_suffix : string -> string;
  win_stem : string -> string;
  win_join : string -> string -> string
}.

Module HostPath.

(** [Path(p).name] *)
Definition name (W : WinPaths) (h : Host) (p : string) : string :=
  if on_windows h then win_name W p else PurePath.name (PurePath.parse p).

(** [Path(p).suffix] *)
Definition suffix (W : WinPaths) (h : Host) (p : string) : string :=
  if on_windows h then win_suffix W p else PurePath.suffix (PurePath.parse p).

(** [Path(p).stem] *)
Definition stem (W : WinPaths) (h : Host) (p : string) : string :=
  if on_windows h then win_stem W p else PurePath.stem (PurePath.parse p).

(** [str(Path(d) / seg)] *)
Definition join (W : WinPaths) (h : Host) (d seg : string) : string :=
  if on_windows h then win_join W d seg
  else PurePath.to_str (PurePath.joinpath (PurePath.parse d) seg).

End HostPath.

(** ** Subtitle style and helpers *)

Definition DEFAULT_FONT : string := "Arial".
Definition DEFAULT_FONTSIZE : Z := 26.
Definition DEFAULT_OUTLINE : Z := 2.
Definition DEFAULT_SHADOW : Z := 1.
Definition EN_MARGIN_V : Z := 60.
Definition VI_MARGIN_V : Z := 24.

Definition VID_EXTS : gset string :=
  {[ ".mp4"; ".mkv"; ".mov"; ".avi"; ".m4v" ]}.

(** [str(Path("C:/ffmpeg/bin/ffmpeg.exe"))] where it is evaluated, on
    Windows: the separators are rendered as backslashes. *)
Definition win_candidate : string := "C:/ffmpeg/bin/ffmpeg.exe".
Definition win_candidate_str : string := "C:\ffmpeg\bin\ffmpeg.exe".

Definition ffmpeg_path_guess (h : Host) : result string :=
  match which h "ffmpeg" with
  | Some (String c p) => Ok (String c p)
  | _ =>
      if String.eqb (system h) "Windows" && exists_ h win_candidate
      then Ok win_candidate_str
      else Raise (FileNotFoundError
                    "FFmpeg executable not found. Install it or add to PATH.")
  end.

Definition ffmpeg_escape_for_subtitles (path : string) : string :=
  let p := PyStr.replace ":" "\:" (PyStr.replace "\" "\\" path) in
  let p := PyStr.replace "'" "\'" p in
  "'" +:+ p +:+ "'".

(** The local [style_common] of [build_filter_complex]. *)
Definition style_common (font_size : Z) : string :=
  "FontName=" +:+ DEFAULT_FONT +:+ ",Fontsize=" +:+ PyStr.of_int font_size
  +:+ ",Outline=" +:+ PyStr.of_int DEFAULT_OUTLINE
  +:+ ",Shadow=" +:+ PyStr.of_int DEFAULT_SHADOW.

Definition build_filter_complex (en_srt vi_srt : string) (downscale_720 : bool)
    (font_size en_margin vi_margin : Z) : string :=
  let style_common := style_common font_size in
  let en := ffmpeg_escape_for_subtitles en_srt in
  let vi := ffmpeg_escape_for_subtitles vi_srt in
  let p1 :=
    "[0:v]subtitles=" +:+ en
    +:+ ":charenc=UTF-8:force_style='Alignment=2,MarginV="
    +:+ PyStr.of_int en_margin +:+ "," +:+ style_common +:+ "'[v1]" in
  let p2 :=
    "[v1]subtitles=" +:+ vi
    +:+ ":charenc=UTF-8:force_style='Alignment=2,MarginV="
    +:+ PyStr.of_int vi_margin +:+ "," +:+ style_common +:+ "'[v2]" in
  let p3 :=
    if downscale_720 then "[v2]scale=-2:720[vout]" else "[v2]copy[vout]" in
  if downscale_720
  then p1 +:+ ";" +:+ p2 +:+ ";" +:+ p3
  else p1 +:+ ";" +:+ p2 +:+ ";" +:+ "[v2]format=yuv420p[vout]".

Definition build_encode_args (mode : string) : list string * list string :=
  let mode := PyStr.lower mode in
  if String.eqb mode "smallest" then
    (["-c:v"; "libx265"; "-preset"; "medium"; "-crf"; "28"],
     ["-c:a"; "aac"; "-b:a"; "128k"])
  else if String.eqb mode "smaller" then
    (["-c:v"; "libx264"; "-preset"; "medium"; "-crf"; "24"],
     ["-c:a"; "aac"; "-b:a"; "160k"])
  else
    (["-c:v"; "libx264"; "-preset"; "medium"; "-crf"; "18"],
     ["-c:a"; "aac"; "-b:a"; "192k"]).

(** The list [cmd] of [run_ffmpeg], for a resolved executable. *)
Definition run_ffmpeg_cmd (ffmpeg video en_srt vi_srt out_path mode : string)
    (downscale_720 : bool) (font_size en_margin vi_margin : Z) : list string :=
  let filter_complex :=
    build_filter_complex en_srt vi_srt downscale_720 font_size
      en_margin vi_margin in
  let '(v_args, a_args) := build_encode_args mode in
  [ffmpeg; "-y"; "-i"; video; "-filter_complex"; filter_complex;
   "-map"; "[vout]"; "-map"; "0:a?"]
  ++ v_args ++ a_args ++ ["-movflags"; "+faststart"; out_path].

(** [run_ffmpeg] resolves the executable, runs the child with [cmd] and
    returns its exit status; an exception of the run is passed on.  The
    calls of [progress_cb] for the lines of the error stream are
    [progress_reports] below. *)
Definition run_ffmpeg (h : Host) (video en_srt vi_srt out_path mode : string)
    (downscale_720 : bool) (font_size en_margin vi_margin : Z) : result Z :=
  attempt ffmpeg <- ffmpeg_path_guess h in
  popen h (run_ffmpeg_cmd ffmpeg video en_srt vi_srt out_path mode
             downscale_720 font_size en_margin vi_margin).

(** ** The error stream of the child *)

(** One round of the loop of [run_ffmpeg] over the lines of the error
    stream: the argument [progress_cb] is called with, if it is called.  A
    line without the marker is skipped; the text after the first marker is
    [line.split("time=")[1]], and when it has no word the [IndexError] is
    swallowed. *)
Definition progress_of_line (line : string) : option string :=
  if PyStr.contains "time=" line then
    match nth_error (PyText.split_str "time=" line) 1 with
    | Some seg =>
        match PyText.words seg with
        | t :: _ => Some t
        | [] => None
        end
    | None => None
    end
  else None.

(** The calls of [progress_cb], in order, for the lines of the stream. *)
Fixpoint progress_reports (lines : list string) : list string :=
  match lines with
  | [] => []
  | line :: rest =>
      match progress_of_line line with
      | Some t => t :: progress_reports rest
      | None => progress_reports rest
      end
  end.

(** ** The window

    The Tk variables of [App] are the fields of a record; a [StringVar]
    holds a string, a [BooleanVar] a boolean.  An [IntVar] is bound to a
    spin box whose text the user can edit freely: its field is what
    [get()] returns, and [None] when the text is no number and [get()]
    raises [TclError].  [progress_running] is the state of the progress
    bar (started or stopped).  What a handler does beyond updating the
    variables is the list of effects it returns, in order. *)

Module App.

Record t : Type := mk {
  video_path : string;
  en_srt_path : string;
  vi_srt_path : string;
  out_dir : string;
  status_text : string;
  mode : string;
  downscale : bool;
  font_size_var : option Z;
  en_margin_var : option Z;
  vi_margin_var : option Z;
  progress_running : bool
}.

(** The arguments handed to [_run_embed] on the worker thread. *)
Record job : Type := mk_job {
  job_video : string;
  job_en : string;
  job_vi : string;
  job_out_path : string;
  job_mode : string;
  job_downscale : bool;
  job_font_size : Z;
  job_en_margin : Z;
  job_vi_margin : Z
}.

(** [tcl_error]: the handler is left by a [TclError], which Tk reports
    without ending the program. *)
Inductive effect : Type :=
| showerror (title message : string)
| thread_start (j : job)
| tcl_error.

Definition __init__ (h : Host) : t :=
  {| video_path := "";
     en_srt_path := "";
     vi_srt_path := "";
     out_dir := home h;
     status_text := "Drop files or click Browse…";
     mode := "Smaller";
     downscale := false;
     font_size_var := Some 24%Z;
     en_margin_var := Some 60%Z;
     vi_margin_var := Some 24%Z;
     progress_running := false |}.

Definition set_video_path (p : string) (a : t) : t :=
  mk p (en_srt_path a) (vi_srt_path a) (out_dir a) (status_text a) (mode a)
     (downscale a) (font_size_var a) (en_margin_var a) (vi_margin_var a)
     (progress_running a).

Definition set_en_srt_path (p : string) (a : t) : t :=
  mk (video_path a) p (vi_srt_path a) (out_dir a) (status_text a) (mode a)
     (downscale a) (font_size_var a) (en_margin_var a) (vi_margin_var a)
     (progress_running a).

Definition set_vi_srt_path (p : string) (a : t) : t :=
  mk (video_path a) (en_srt_path a) p (out_dir a) (status_text a) (mode a)
     (downscale a) (font_size_var a) (en_margin_var a) (vi_margin_var a)
     (progress_running a).

Definition set_out_dir (p : string) (a : t) : t :=
  mk (video_path a) (en_srt_path a) (vi_srt_path a) p (status_text a) (mode a)
     (downscale a) (font_size_var a) (en_margin_var a) (vi_margin_var a)
     (progress_running a).

Definition set_status_text (s : string) (a : t) : t :=
  mk (video_path a) (en_srt_path a) (vi_srt_path a) (out_dir a) s (mode a)
     (downscale a) (font_size_var a) (en_margin_var a) (vi_margin_var a)
     (progress_running a).

Definition progress_start (a : t) : t :=
  mk (video_path a) (en_srt_path a) (vi_srt_path a) (out_dir a)
     (status_text a) (mode a) (downscale a) (font_size_var a)
     (en_margin_var a) (vi_margin_var a) true.

(** *** Drag and drop *)

Definition nonempty (s : string) : bool := negb (String.eqb s "").

(** The loop of [_parse_dnd_list] over the characters of [data], with its
    three locals. *)
Fixpoint parse_dnd_loop (data : string) (items : list string)
    (token : string) (in_brace : bool) : list string :=
  match data with
  | EmptyString => if nonempty token then items ++ [token] else items
  | String ch rest =>
      if Ascii.eqb ch "{" then parse_dnd_loop rest items "" true
      else if Ascii.eqb ch "}" then
        parse_dnd_loop rest (items ++ [token]) "" false
      else if Ascii.eqb ch " " && negb in_brace then
        if nonempty token then parse_dnd_loop rest (items ++ [token]) "" in_brace
        else parse_dnd_loop rest items token in_brace
      else parse_dnd_loop rest items (token +:+ String ch "") in_brace
  end.

Definition _parse_dnd_list (data : string) : list string :=
  parse_dnd_loop data [] "" false.

Definition VI_HINTS : list string := ["vi"; "viet"; "vietnam"].

(** One round of the loop of [_on_multi_drop]. *)
Definition route_path (W : WinPaths) (h : Host) (a : t) (p : string) : t :=
  let p := PyStr.strip p in
  if negb (nonempty p) then a
  else if isdir h p then set_out_dir p a
  else
    let ext := PyStr.lower (HostPath.suffix W h p) in
    if bool_decide (ext ∈ VID_EXTS) then set_video_path p a
    else if String.eqb ext ".srt" then
      let name := PyStr.lower (HostPath.name W h p) in
      if existsb (fun k => PyStr.contains k name) VI_HINTS
      then set_vi_srt_path p a
      else if negb (nonempty (en_srt_path a)) then set_en_srt_path p a
      else set_vi_srt_path p a
    else a.

(** The loop of [_on_multi_drop] over the parsed paths. *)
Definition route_paths (W : WinPaths) (h : Host) (a : t)
    (paths : list string) : t :=
  fold_left (route_path W h) paths a.

Definition _on_multi_drop (W : WinPaths) (h : Host) (a : t)
    (event_data : string) : t :=
  route_paths W h a (_parse_dnd_list event_data).

Definition _swap_srts (a : t) : t :=
  let tmp := en_srt_path a in
  set_vi_srt_path tmp (set_en_srt_path (vi_srt_path a) a).

(** *** Run *)

(** The three [IntVar]s are read when the arguments of the thread are put
    together, after the status line and the progress bar were set. *)
Definition _start (W : WinPaths) (h : Host) (a : t) : t * list effect :=
  let video := PyStr.strip (video_path a) in
  let en := PyStr.strip (en_srt_path a) in
  let vi := PyStr.strip (vi_srt_path a) in
  let out_dir := PyStr.strip (out_dir a) in
  if negb (forallb (isfile h) [video; en; vi]) then
    (a, [showerror "Missing file"
           "Please select a valid video and two SRT files."])
  else if negb (isdir h out_dir) then
    (a, [showerror "Missing folder" "Please choose a valid output folder."])
  else
    let base := HostPath.stem W h video in
    let out_path := HostPath.join W h out_dir (base +:+ "_dual_subbed.mp4") in
    let a' := progress_start (set_status_text "Starting FFmpeg…" a) in
    match font_size_var a, en_margin_var a, vi_margin_var a with
    | Some font_size, Some en_margin, Some vi_margin =>
        (a', [thread_start
                (mk_job video en vi out_path (mode a) (downscale a)
                   font_size en_margin vi_margin)])
    | _, _, _ => (a', [tcl_error])
    end.

End App.

(** ** The other handlers of the window *)

Module Handlers.

(** The variable a file row is bound to by [_make_drop_row]. *)
Inductive var : Type := video_var | en_srt_var | vi_srt_var.

Definition var_get (v : var) (a : App.t) : string :=
  match v with
  | video_var => App.video_path a
  | en_srt_var => App.en_srt_path a
  | vi_srt_var => App.vi_srt_path a
  end.

Definition var_set (v : var) (p : string) (a : App.t) : App.t :=
  match v with
  | video_var => App.set_video_path p a
  | en_srt_var => App.set_en_srt_path p a
  | vi_srt_var => App.set_vi_srt_path p a
  end.

Definition _on_outdir_drop (h : Host) (a : App.t) (event_data : string) : App.t :=
  match App._parse_dnd_list event_data with
  | p :: _ => if isdir h p then App.set_out_dir p a else a
  | [] => a
  end.

Definition _on_entry_drop (a : App.t) (event_data : string) (v : var) : App.t :=
  match App._parse_dnd_list event_data with
  | p :: _ => var_set v p a
  | [] => a
  end.

(** [fp] is what the file dialog returned, empty when it was cancelled. *)
Definition _browse_file (fp : string) (v : var) (a : App.t) : App.t :=
  if App.nonempty fp then var_set v fp a else a.

(** [d] is what the directory dialog returned. *)
Definition _choose_out_dir (d : string) (a : App.t) : App.t :=
  if App.nonempty d then App.set_out_dir d a else a.

(** *** The worker *)

Inductive dialog : Type :=
| showinfo (title message : string)
| showerror (title message : string).

Definition progress_stop (a : App.t) : App.t :=
  App.mk (App.video_path a) (App.en_srt_path a) (App.vi_srt_path a)
    (App.out_dir a) (App.status_text a) (App.mode a) (App.downscale a)
    (App.font_size_var a) (App.en_margin_var a) (App.vi_margin_var a) false.

(** The line feed of [Created\n...]. *)
Definition nl : string := String (ascii_of_nat 10) "".

(** [_finish(ok, start, out_path, msg)].  [dur] is the elapsed time as the
    format [.1f] renders it; the clock is the host's. *)
Definition _finish (ok : bool) (dur out_path msg : string) (a : App.t) :
    App.t * list dialog :=
  let a := progress_stop a in
  if ok then
    (App.set_status_text ("Done in " +:+ dur +:+ "s → " +:+ out_path) a,
     [showinfo "Success" ("Created" +:+ nl +:+ out_path)])
  else
    (App.set_status_text (if App.nonempty msg then msg else "Failed.") a,
     [showerror "Error" (if App.nonempty msg then msg else "Encoding failed.")]).

(** [str(e)]. *)
Definition str_of_exception (e : exception) : string :=
  match e with
  | FileNotFoundError msg => msg
  | OSError msg => msg
  | UnicodeDecodeError msg => msg
  end.

(** [_run_embed] with the arguments of a job.  [stderr] is what was read
    from the error stream of the child, line by line; each report sets the
    status line before [_finish] sets it for good. *)
Definition _run_embed (h : Host) (stderr : list string) (dur : string)
    (j : App.job) (a : App.t) : App.t * list dialog :=
  let a :=
    fold_left
      (fun a ts => App.set_status_text ("Encoding… time=" +:+ ts) a)
      (progress_reports stderr) a in
  match run_ffmpeg h (App.job_video j) (App.job_en j) (App.job_vi j)
          (App.job_out_path j) (App.job_mode j) (App.job_downscale j)
          (App.job_font_size j) (App.job_en_margin j) (App.job_vi_margin j)
  with
  | Raise e => _finish false dur "" (str_of_exception e) a
  | Ok code =>
      let ok := Z.eqb code 0 && exists_ h (App.job_out_path j) in
      _finish ok dur (App.job_out_path j) "" a
  end.

End Handlers.

(** A host for the examples: no tool on the search path, and the given
    directories and files. *)
Definition test_host (dirs files : list string) : Host :=
  {| which := fun _ => None;
     system := "Linux";
     exists_ := fun p => existsb (String.eqb p) (dirs ++ files);
     isfile := fun p => existsb (String.eqb p) files;
     isdir := fun p => existsb (String.eqb p) dirs;
     home := "/home/u";
     popen := fun _ => Ok 0%Z |}.

(** A Windows flavour for the examples: it reads every path as the POSIX
    flavour does, which is what pathlib does on Windows for a path without
    drive, backslash and colon. *)
Definition posix_like : WinPaths :=
  {| win_name := fun p => PurePath.name (PurePath.parse p);
     win_suffix := fun p => PurePath.suffix (PurePath.parse p);
     win_stem := fun p => PurePath.stem (PurePath.parse p);
     win_join := fun d seg =>
       PurePath.to_str (PurePath.joinpath (PurePath.parse d) seg) |}.

(** * Vocabulary of the properties *)

(** [c in s] for a character. *)
Fixpoint has_char (c : ascii) (s : string) : bool :=
  match s with
  | EmptyString => false
  | String a s' => Ascii.eqb a c || has_char c s'
  end.

(** ** Escaping *)

(** Rewriting a string character by character, which is what [replace]
    does for a one-character pattern. *)
Fixpoint subst_char (c : ascii) (new : string) (s : string) : string :=
  match s with
  | EmptyString => EmptyString
  | String a s' =>
      (if Ascii.eqb a c then new else String a EmptyString)
      +:+ subst_char c new s'
  end.

(** The escape of one character of a subtitle path. *)
Definition escape_char (c : ascii) : string :=
  if Ascii.eqb c "\" then "\\"
  else if Ascii.eqb c ":" then "\:"
  else if Ascii.eqb c "'" then "\'"
  else String c "".

Fixpoint escape_chars (s : string) : string :=
  match s with
  | EmptyString => EmptyString
  | String c s' => escape_char c +:+ escape_chars s'
  end.

(** ** Presets *)

(** The three rows of the preset table. *)
Definition normal_args : list string * list string :=
  (["-c:v"; "libx264"; "-preset"; "medium"; "-crf"; "18"],
   ["-c:a"; "aac"; "-b:a"; "192k"]).

Definition smaller_args : list string * list string :=
  (["-c:v"; "libx264"; "-preset"; "medium"; "-crf"; "24"],
   ["-c:a"; "aac"; "-b:a"; "160k"]).

Definition smallest_args : list string * list string :=
  (["-c:v"; "libx265"; "-preset"; "medium"; "-crf"; "28"],
   ["-c:a"; "aac"; "-b:a"; "128k"]).

(** ** Filter chain *)

(** A subtitle stage of a filter graph, as the specification describes it:
    the stream it consumes, the escaped subtitle file, the alignment, the
    vertical margin, the style shared by both tracks, and the label of its
    output. *)
Record subtitle_stage : Type := {
  stage_input : string;
  stage_file : string;
  stage_alignment : Z;
  stage_margin : Z;
  stage_style : string;
  stage_output : string
}.

Definition render_stage (s : subtitle_stage) : string :=
  "[" +:+ stage_input s +:+ "]subtitles=" +:+ stage_file s
  +:+ ":charenc=UTF-8:force_style='Alignment="
  +:+ PyStr.of_int (stage_alignment s)
  +:+ ",MarginV=" +:+ PyStr.of_int (stage_margin s)
  +:+ "," +:+ stage_style s +:+ "'[" +:+ stage_output s +:+ "]".

Definition english_stage (en_srt : string) (font_size en_margin : Z) :
    subtitle_stage :=
  {| stage_input := "0:v";
     stage_file := ffmpeg_escape_for_subtitles en_srt;
     stage_alignment := 2;
     stage_margin := en_margin;
     stage_style := style_common font_size;
     stage_output := "v1" |}.

Definition vietnamese_stage (vi_srt : string) (font_size vi_margin : Z) :
    subtitle_stage :=
  {| stage_input := "v1";
     stage_file := ffmpeg_escape_for_subtitles vi_srt;
     stage_alignment := 2;
     stage_margin := vi_margin;
     stage_style := style_common font_size;
     stage_output := "v2" |}.

Definition scale_stage : string := "[v2]scale=-2:720[vout]".
Definition format_stage : string := "[v2]format=yuv420p[vout]".

Definition final_stage (downscale_720 : bool) : string :=
  if downscale_720 then scale_stage else format_stage.

(** ** Command line and executable *)

(** [x] immediately followed by [y] somewhere in [l]. *)
Definition adjacent {A : Type} (x y : A) (l : list A) : Prop :=
  exists pre post : list A, l = pre ++ x :: y :: post.

(** The error raised when the tool is not found. *)
Definition tool_not_found : exception :=
  FileNotFoundError "FFmpeg executable not found. Install it or add to PATH.".

(** The search path resolves the tool when [shutil.which] returns a
    non-empty string. *)
Definition on_search_path (h : Host) (p : string) : Prop :=
  which h "ffmpeg" = Some p /\ p <> "".

Definition not_on_search_path (h : Host) : Prop :=
  which h "ffmpeg" = None \/ which h "ffmpeg" = Some "".

(** ** Start action *)

(** The interface is idle when no run is shown in progress. *)
Definition Idle (a : App.t) : Prop := App.progress_running a = false.

(** A handler launches a run when it starts a worker thread. *)
Definition launches (r : App.t * list App.effect) : Prop :=
  exists j : App.job, In (App.thread_start j) (snd r).

(** The four checks of the start action, on the values it reads. *)
Definition inputs_valid (h : Host) (a : App.t) : Prop :=
  isfile h (PyStr.strip (App.video_path a)) = true /\
  isfile h (PyStr.strip (App.en_srt_path a)) = true /\
  isfile h (PyStr.strip (App.vi_srt_path a)) = true /\
  isdir h (PyStr.strip (App.out_dir a)) = true.



(** The output path of the start action. *)
Definition start_out_path (W : WinPaths) (h : Host) (a : App.t) : string :=
  HostPath.join W h (PyStr.strip (App.out_dir a))
    (HostPath.stem W h (PyStr.strip (App.video_path a)) +:+ "_dual_subbed.mp4").

(** The first of the two tests of the start action. *)
Definition files_valid (h : Host) (a : App.t) : bool :=
  isfile h (PyStr.strip (App.video_path a)) &&
  isfile h (PyStr.strip (App.en_srt_path a)) &&
  isfile h (PyStr.strip (App.vi_srt_path a)).

(** ** Drop routing *)

(** What one round of the drop loop looks at: the lower-case extension
    and the lower-case file name of a path, and whether the name contains
    one of the Vietnamese hints [vi], [viet] and [vietnam]. *)
Definition ext_of (W : WinPaths) (h : Host) (q : string) : string :=
  PyStr.lower (HostPath.suffix W h q).

Definition name_of (W : WinPaths) (h : Host) (q : string) : string :=
  PyStr.lower (HostPath.name W h q).

Definition has_vi_hint (W : WinPaths) (h : Host) (q : string) : bool :=
  PyStr.contains "vi" (name_of W h q) || PyStr.contains "viet" (name_of W h q)
  || PyStr.contains "vietnam" (name_of W h q).

(** A path without backslash and colon that does not start with two
    slashes: pathlib reads such a path the same way in both flavours. *)
Definition simple_path (p : string) : bool :=
  negb (has_char "\" p) && negb (has_char ":" p)
  && negb (PyStr.startswith p "//").

(** The Windows flavour gives the name and the suffix of a simple path as
    the POSIX flavour does. *)
Definition win_agrees (W : WinPaths) : Prop :=
  forall p : string,
    simple_path p = true ->
    win_name W p = PurePath.name (PurePath.parse p) /\
    win_suffix W p = PurePath.suffix (PurePath.parse p).

(** The host is no Windows host, or its pathlib reads simple paths as the
    POSIX one does. *)
Definition reads_simple_paths (W : WinPaths) (h : Host) : Prop :=
  on_windows h = false \/ win_agrees W.


(** A dropped path that is routed as a directory, and one that is routed
    as a video. *)
Definition is_dir_path (h : Host) (p : string) : bool :=
  App.nonempty (PyStr.strip p) && isdir h (PyStr.strip p).


(** A subtitle file without a hint in its name. *)
Definition is_plain_srt (W : WinPaths) (h : Host) (p : string) : Prop :=
  PyStr.strip p <> "" /\ isdir h (PyStr.strip p) = false /\
  ext_of W h (PyStr.strip p) = ".srt" /\
  has_vi_hint W h (PyStr.strip p) = false.

(** Removing the escapes of a filter argument: a backslash is dropped and
    the character after it is kept.  [esc] tells that the last character
    read was such a backslash. *)
Fixpoint unescape_go (esc : bool) (s : string) : string :=
  match s with
  | EmptyString => EmptyString
  | String c s' =>
      if esc then String c (unescape_go false s')
      else if Ascii.eqb c "\" then unescape_go true s'
      else String c (unescape_go false s')
  end.

(** No colon and no single quote is bare, and no backslash is left
    without the character it escapes. *)
Fixpoint escapes_ok (esc : bool) (s : string) : bool :=
  match s with
  | EmptyString => negb esc
  | String c s' =>
      if esc then escapes_ok false s'
      else if Ascii.eqb c "\" then escapes_ok true s'
      else negb (Ascii.eqb c ":") && negb (Ascii.eqb c "'")
           && escapes_ok false s'
  end.

(** A path the escape leaves alone. *)
Definition plain_path (s : string) : bool :=
  negb (has_char "\" s) && negb (has_char ":" s) && negb (has_char "'" s).

(** A string without braces, and one without braces and spaces. *)
Definition no_brace (s : string) : bool :=
  negb (has_char "{" s) && negb (has_char "}" s).

Definition bare_token (s : string) : bool :=
  no_brace s && negb (has_char " " s) && App.nonempty s.

(** A way to write a list of paths as a drop payload: an element with a
    space, or an empty one, is put in braces; the elements are separated by
    a space. *)
Definition dnd_quote (p : string) : string :=
  if bare_token p then p else "{" +:+ p +:+ "}".

Definition dnd_encode (paths : list string) : string :=
  PyStr.join " " (map dnd_quote paths).

(** Whether the parser is inside a brace after [data], when it was
    [in_brace] before. *)
Fixpoint brace_after (data : string) (in_brace : bool) : bool :=
  match data with
  | EmptyString => in_brace
  | String ch rest =>
      if Ascii.eqb ch "{" then brace_after rest true
      else if Ascii.eqb ch "}" then brace_after rest false
      else brace_after rest in_brace
  end.

(** The settings a drop has no business with. *)
Definition same_settings (a b : App.t) : Prop :=
  App.status_text a = App.status_text b /\ App.mode a = App.mode b /\
  App.downscale a = App.downscale b /\
  App.font_size_var a = App.font_size_var b /\
  App.en_margin_var a = App.en_margin_var b /\
  App.vi_margin_var a = App.vi_margin_var b /\
  App.progress_running a = App.progress_running b.

(** The paths and options a run reads. *)
Definition same_inputs (a b : App.t) : Prop :=
  App.video_path a = App.video_path b /\ App.en_srt_path a = App.en_srt_path b /\
  App.vi_srt_path a = App.vi_srt_path b /\ App.out_dir a = App.out_dir b /\
  App.mode a = App.mode b /\ App.downscale a = App.downscale b /\
  App.font_size_var a = App.font_size_var b /\
  App.en_margin_var a = App.en_margin_var b /\
  App.vi_margin_var a = App.vi_margin_var b.

(** The tests of [is_plain_srt] as a boolean, a subtitle file with a
    hint, and a path the drop loop passes over. *)
Definition plain_srt (W : WinPaths) (h : Host) (p : string) : bool :=
  App.nonempty (PyStr.strip p) && negb (isdir h (PyStr.strip p))
  && String.eqb (ext_of W h (PyStr.strip p)) ".srt"
  && negb (has_vi_hint W h (PyStr.strip p)).

Definition hinted_srt (W : WinPaths) (h : Host) (p : string) : bool :=
  App.nonempty (PyStr.strip p) && negb (isdir h (PyStr.strip p))
  && String.eqb (ext_of W h (PyStr.strip p)) ".srt"
  && has_vi_hint W h (PyStr.strip p).

Definition passed_over (W : WinPaths) (h : Host) (p : string) : bool :=
  negb (App.nonempty (PyStr.strip p))
  || (negb (isdir h (PyStr.strip p))
      && negb (bool_decide (ext_of W h (PyStr.strip p) ∈ VID_EXTS))
      && negb (String.eqb (ext_of W h (PyStr.strip p)) ".srt")).

(** Some character of [s] passes the test [f]. *)
Fixpoint any_char (f : ascii -> bool) (s : string) : bool :=
  match s with
  | EmptyString => false
  | String c s' => f c || any_char f s'
  end.

(** The three numeric settings can be read. *)
Definition settings_readable (a : App.t) : Prop :=
  is_Some (App.font_size_var a) /\ is_Some (App.en_margin_var a) /\
  is_Some (App.vi_margin_var a).

(** The job the start action hands to the worker when the checks pass
    and the settings read as [fs], [em] and [vm]. *)
Definition start_job (W : WinPaths) (h : Host) (a : App.t) (fs em vm : Z) :
    App.job :=
  App.mk_job (PyStr.strip (App.video_path a)) (PyStr.strip (App.en_srt_path a))
    (PyStr.strip (App.vi_srt_path a))
    (start_out_path W h a) (App.mode a) (App.downscale a) fs em vm.

(** Every byte of [s] is an ASCII character. *)
Definition ascii_only (s : string) : bool :=
  negb (any_char (fun c => (128 <=? N_of_ascii c)%N) s).

(** The command line of a job, for a resolved executable. *)
Definition job_cmd (ffmpeg : string) (j : App.job) : list string :=
  run_ffmpeg_cmd ffmpeg (App.job_video j) (App.job_en j) (App.job_vi j)
    (App.job_out_path j) (App.job_mode j) (App.job_downscale j)
    (App.job_font_size j) (App.job_en_margin j) (App.job_vi_margin j).


(** ** The handlers of the window *)

(** The callbacks [_build_ui] and [_make_drop_row] bind, and the worker
    the start action launches, each with what the event, the dialog or the
    host hands it. *)
Inductive action : Type :=
| multi_drop (event_data : string)
| outdir_drop (event_data : string)
| entry_drop (event_data : string) (v : Handlers.var)
| browse_file (fp : string) (v : Handlers.var)
| choose_out_dir (d : string)
| swap_srts
| start
| run_embed (stderr : list string) (dur : string) (j : App.job).

(** The window after a handler has run. *)
Definition handle (W : WinPaths) (h : Host) (act : action) (a : App.t) :
    App.t :=
  match act with
  | multi_drop event_data => App._on_multi_drop W h a event_data
  | outdir_drop event_data => Handlers._on_outdir_drop h a event_data
  | entry_drop event_data v => Handlers._on_entry_drop a event_data v
  | browse_file fp v => Handlers._browse_file fp v a
  | choose_out_dir d => Handlers._choose_out_dir d a
  | swap_srts => App._swap_srts a
  | start => fst (App._start W h a)
  | run_embed stderr dur j => fst (Handlers._run_embed h stderr dur j a)
  end.
(** * Properties *)

(** ** The model on concrete inputs *)

Example of_int_examples :
  PyStr.of_int 60 = "60" /\ PyStr.of_int 0 = "0" /\ PyStr.of_int (-7) = "-7".
Proof. repeat split; reflexivity. Qed.

Example replace_examples :
  PyStr.replace "ab" "X" "aababab." = "aXXX." /\
  PyStr.replace "aa" "b" "aaa" = "ba" /\
  PyStr.strip "  a b  " = "a b" /\
  PyStr.split "/" "/a//b" = [""; "a"; ""; "b"] /\
  PyStr.rfind "." "a.b.c" = Some 3 /\
  PyStr.endswith "movie.mp4" ".mp4" = true /\
  PyStr.lower "SmAlLeR.Mp4" = "smaller.mp4".
Proof. repeat split; reflexivity. Qed.

(** White space and lower case outside ASCII: the no-break space U+00A0
    and the ideographic space U+3000 are stripped, the Kelvin sign lowers
    to [k] and the dotted capital I to [i] and a combining dot. *)
Example unicode_examples :
  PyStr.strip (PyStr.bytes [194; 160; 32; 97; 32; 98; 227; 128; 128; 28]%N) = "a b" /\
  PyStr.lower ("/a/x.m" +:+ PyStr.KELVIN +:+ "v") = "/a/x.mkv" /\
  PyStr.lower ("V" +:+ PyStr.DOTTED_I +:+ ".SRT") =
    "vi" +:+ PyStr.bytes [204; 135]%N +:+ ".srt" /\
  PyText.words ("7" +:+ PyStr.bytes [194; 160]%N +:+ "x") = ["7"; "x"].
Proof. repeat split; reflexivity. Qed.

Example path_examples :
  PurePath.name (PurePath.parse "/a/vietnamese_sub.srt") = "vietnamese_sub.srt" /\
  PurePath.suffix (PurePath.parse "/a/b.tar.GZ") = ".GZ" /\
  PurePath.suffix (PurePath.parse "/a/.srt") = "" /\
  PurePath.suffix (PurePath.parse "/a/b.") = "" /\
  PurePath.stem (PurePath.parse "/a/./movie.mp4/") = "movie" /\
  PurePath.to_str (PurePath.joinpath (PurePath.parse "/tmp//out/") "x.mp4")
    = "/tmp/out/x.mp4" /\
  PurePath.to_str (PurePath.joinpath (PurePath.parse ".") "x.mp4") = "x.mp4" /\
  PurePath.to_str (PurePath.parse "") = "." /\
  PurePath.parse "//a/b" = PurePath.mk "//" ["a"; "b"] /\
  PurePath.parse "///a/./b/" = PurePath.mk "/" ["a"; "b"].
Proof. repeat split; reflexivity. Qed.

Example escape_example :
  ffmpeg_escape_for_subtitles "C:\Vids\it's.srt" = "'C\:\\Vids\\it\'s.srt'".
Proof. reflexivity. Qed.

Example filter_example :
  build_filter_complex "/a/en.srt" "/a/vi.srt" false 24 60 24 =
  "[0:v]subtitles='/a/en.srt':charenc=UTF-8:force_style='Alignment=2,MarginV=60,FontName=Arial,Fontsize=24,Outline=2,Shadow=1'[v1];[v1]subtitles='/a/vi.srt':charenc=UTF-8:force_style='Alignment=2,MarginV=24,FontName=Arial,Fontsize=24,Outline=2,Shadow=1'[v2];[v2]format=yuv420p[vout]".
Proof. reflexivity. Qed.

Example parse_dnd_example :
  App._parse_dnd_list "/a/movie.mp4 {/a/my english.srt}  /a/vi.srt" =
  ["/a/movie.mp4"; "/a/my english.srt"; "/a/vi.srt"].
Proof. reflexivity. Qed.

Example multi_drop_example :
  let a := App._on_multi_drop posix_like (test_host ["/out"] [])
             (App.__init__ (test_host ["/out"] []))
             "/a/movie.mp4 /a/english.srt /a/vietnamese_sub.srt /out" in
  (App.video_path a, App.en_srt_path a, App.vi_srt_path a, App.out_dir a) =
  ("/a/movie.mp4", "/a/english.srt", "/a/vietnamese_sub.srt", "/out").
Proof. vm_compute. reflexivity. Qed.

(** Paths with white space and letters outside ASCII: the no-break space
    at the end is stripped, the Kelvin sign makes the extension [.mkv], and
    the dotted capital I makes the name contain [vi]. *)
Example unicode_routing_example :
  let h := test_host [] [] in
  let a := App.__init__ h in
  let nbsp := PyStr.bytes [194; 160]%N in
  App.video_path (App.route_path posix_like h a ("/a/movie.mp4" +:+ nbsp))
  = "/a/movie.mp4" /\
  App.video_path
    (App.route_path posix_like h a ("/a/x.m" +:+ PyStr.KELVIN +:+ "v"))
  = "/a/x.m" +:+ PyStr.KELVIN +:+ "v" /\
  App.vi_srt_path
    (App.route_path posix_like h a ("/a/V" +:+ PyStr.DOTTED_I +:+ ".srt"))
  = "/a/V" +:+ PyStr.DOTTED_I +:+ ".srt" /\
  App.en_srt_path
    (App.route_path posix_like h a ("/a/one.srt" +:+ nbsp)) = "/a/one.srt".
Proof. vm_compute. repeat split. Qed.

Example start_example :
  let h := test_host ["/out"] ["/a/movie.mp4"; "/a/en.srt"; "/a/vi.srt"] in
  let a := App._on_multi_drop posix_like h (App.__init__ h)
             "/a/movie.mp4 /a/en.srt /a/vi.srt /out" in
  snd (App._start posix_like h a) =
  [App.thread_start
     (App.mk_job "/a/movie.mp4" "/a/en.srt" "/a/vi.srt"
        "/out/movie_dual_subbed.mp4" "Smaller" false 24 60 24)].
Proof. vm_compute. reflexivity. Qed.

(** ** Strings *)

Section StringFacts.

Lemma str_app_assoc (a b c : string) : (a +:+ b) +:+ c = a +:+ (b +:+ c).
Proof. induction a as [|x a IH]; simpl; [reflexivity | now rewrite IH]. Qed.

Lemma str_app_nil_r (a : string) : a +:+ "" = a.
Proof. induction a as [|x a IH]; simpl; [reflexivity | now rewrite IH]. Qed.

Lemma startswith_app (a b : string) : PyStr.startswith (a +:+ b) a = true.
Proof.
  induction a as [|x a IH]; simpl; [reflexivity |].
  now rewrite Ascii.eqb_refl, IH.
Qed.

Lemma rev_app_app (a b acc : string) :
  String.rev_app (a +:+ b) acc = String.rev_app b (String.rev_app a acc).
Proof.
  revert acc; induction a as [|x a IH]; intros acc; simpl;
    [reflexivity | apply IH].
Qed.

Lemma rev_app_acc (a acc : string) :
  String.rev_app a acc = String.rev_app a "" +:+ acc.
Proof.
  revert acc; induction a as [|x a IH]; intros acc; simpl; [reflexivity |].
  rewrite (IH (String x acc)), (IH (String x "")), str_app_assoc.
  reflexivity.
Qed.

(** A string that ends with [suf] passes [endswith suf]. *)
Lemma endswith_app (a suf : string) : PyStr.endswith (a +:+ suf) suf = true.
Proof.
  unfold PyStr.endswith, String.rev.
  rewrite rev_app_app, rev_app_acc. apply startswith_app.
Qed.

Lemma startswith_app_l (s k1 k2 : string) :
  PyStr.startswith s (k1 +:+ k2) = true -> PyStr.startswith s k1 = true.
Proof.
  revert s; induction k1 as [|c k1 IH]; intros s; [reflexivity |].
  cbn [String.append PyStr.startswith]. destruct s as [|b s]; [discriminate |].
  intros [-> H]%andb_true_iff. now rewrite (IH _ H).
Qed.

Lemma contains_app_l (s k1 k2 : string) :
  PyStr.contains (k1 +:+ k2) s = true -> PyStr.contains k1 s = true.
Proof.
  induction s as [|c s IH]; cbn [PyStr.contains].
  - rewrite !orb_false_r. apply startswith_app_l.
  - intros [H | H]%orb_true_iff.
    + now rewrite (startswith_app_l _ _ _ H).
    + rewrite (IH H). apply orb_true_r.
Qed.

(** A string that contains [viet] or [vietnam] contains [vi]. *)
Lemma hints_are_vi (n : string) :
  PyStr.contains "vi" n || PyStr.contains "viet" n
  || PyStr.contains "vietnam" n = PyStr.contains "vi" n.
Proof.
  destruct (PyStr.contains "vi" n) eqn:H1; [reflexivity |].
  destruct (PyStr.contains "viet" n) eqn:H2.
  { apply (contains_app_l _ "vi" "et") in H2. congruence. }
  destruct (PyStr.contains "vietnam" n) eqn:H3; [| reflexivity].
  apply (contains_app_l _ "vi" "etnam") in H3. congruence.
Qed.

End StringFacts.

(** ** Escaping subtitle paths *)

Lemma replace_char (c : ascii) (new s : string) :
  PyStr.replace (String c "") new s = subst_char c new s.
Proof.
  unfold PyStr.replace.
  induction s as [|a s IH]; [reflexivity |].
  cbn [PyStr.replace_go subst_char PyStr.startswith String.length Nat.sub].
  rewrite andb_true_r, (Ascii.eqb_sym a c), IH.
  destruct (Ascii.eqb c a); reflexivity.
Qed.

Lemma subst_char_app (c : ascii) (new a b : string) :
  subst_char c new (a +:+ b) = subst_char c new a +:+ subst_char c new b.
Proof.
  induction a as [|x a IH]; simpl; [reflexivity |].
  now rewrite IH, str_app_assoc.
Qed.

Lemma three_replaces_escape (path : string) :
  PyStr.replace "'" "\'"
    (PyStr.replace ":" "\:" (PyStr.replace "\" "\\" path))
  = escape_chars path.
Proof.
  rewrite !replace_char.
  induction path as [|c path IH]; [reflexivity |].
  cbn [subst_char escape_chars].
  rewrite !subst_char_app, IH. f_equal.
  unfold escape_char.
  destruct (Ascii.eqb c "\") eqn:E1; [reflexivity |].
  cbn [subst_char]. rewrite str_app_nil_r.
  destruct (Ascii.eqb c ":") eqn:E2; [reflexivity |].
  cbn [subst_char]. rewrite str_app_nil_r.
  destruct (Ascii.eqb c "'") eqn:E3; reflexivity.
Qed.

(** C1.  [ffmpeg_escape_for_subtitles] is the three replacements in the
    order backslash, colon, single quote, between two single quotes.  Taken
    in that order they double each backslash of the path and put one
    backslash before each colon and each single quote of the path, and the
    path [C:\Vids\it's.srt] becomes ['C\:\\Vids\\it\'s.srt']. *)
Theorem ffmpeg_escape_for_subtitles_spec :
  (forall path : string,
     ffmpeg_escape_for_subtitles path =
     "'" +:+ PyStr.replace "'" "\'"
               (PyStr.replace ":" "\:" (PyStr.replace "\" "\\" path))
         +:+ "'") /\
  (forall path : string,
     ffmpeg_escape_for_subtitles path = "'" +:+ escape_chars path +:+ "'") /\
  ffmpeg_escape_for_subtitles "C:\Vids\it's.srt" = "'C\:\\Vids\\it\'s.srt'".
Proof.
  split; [reflexivity | split; [| reflexivity]].
  intros path. unfold ffmpeg_escape_for_subtitles.
  now rewrite three_replaces_escape.
Qed.

(** The order is observable: quoting colons before doubling backslashes
    doubles the backslash that was put before the colon. *)
Lemma escape_order_matters :
  PyStr.replace "\" "\\" (PyStr.replace ":" "\:" "C:\x") = "C\\:\\x" /\
  PyStr.replace ":" "\:" (PyStr.replace "\" "\\" "C:\x") = "C\:\\x".
Proof. split; reflexivity. Qed.

(** ** Compression presets *)

Lemma lower_char_idem (c : ascii) :
  PyStr.lower_char (PyStr.lower_char c) = PyStr.lower_char c.
Proof. destruct c as [[] [] [] [] [] [] [] []]; reflexivity. Qed.

(** A byte outside ASCII is the lower-case form of itself only. *)
Lemma lower_char_high (c : ascii) :
  (128 <=? N_of_ascii (PyStr.lower_char c))%N = true -> PyStr.lower_char c = c.
Proof. destruct c as [[] [] [] [] [] [] [] []]; first [reflexivity | discriminate]. Qed.

Lemma lower_go_head (s t : string) (b : ascii) :
  PyStr.lower_go 0 s = String b t ->
  (128 <=? N_of_ascii b)%N = true ->
  exists s', s = String b s'.
Proof.
  intros H Hb. destruct s as [|c s]; [discriminate |].
  cbn [PyStr.lower_go] in H.
  destruct (PyStr.startswith (String c s) PyStr.DOTTED_I).
  { injection H as <- _. discriminate. }
  destruct (PyStr.startswith (String c s) PyStr.KELVIN).
  { injection H as <- _. discriminate. }
  injection H as H _. exists s. f_equal.
  rewrite <- H in Hb |- *. symmetry. now apply lower_char_high.
Qed.

Lemma lower_go_plain (c : ascii) (s : string) :
  PyStr.startswith (String c s) PyStr.DOTTED_I = false ->
  PyStr.startswith (String c s) PyStr.KELVIN = false ->
  PyStr.startswith (String (PyStr.lower_char c) (PyStr.lower_go 0 s)) PyStr.DOTTED_I = false /\
  PyStr.startswith (String (PyStr.lower_char c) (PyStr.lower_go 0 s)) PyStr.KELVIN = false.
Proof.
  intros H1 H2. split.
  - destruct (PyStr.startswith (String (PyStr.lower_char c) _) PyStr.DOTTED_I) eqn:E;
      [| reflexivity].
    exfalso. cbn [PyStr.startswith PyStr.DOTTED_I] in E.
    apply andb_prop in E as [Ec E].
    apply Ascii.eqb_eq in Ec.
    assert (Hc : PyStr.lower_char c = c)
      by (apply lower_char_high; rewrite <- Ec; reflexivity).
    rewrite Hc in Ec. subst c.
    destruct (PyStr.lower_go 0 s) as [|b t] eqn:El; [discriminate |].
    apply andb_prop in E as [Eb _]. apply Ascii.eqb_eq in Eb. subst b.
    apply lower_go_head in El as [s' ->]; [| reflexivity].
    discriminate H1.
  - destruct (PyStr.startswith (String (PyStr.lower_char c) _) PyStr.KELVIN) eqn:E;
      [| reflexivity].
    exfalso. cbn [PyStr.startswith PyStr.KELVIN] in E.
    apply andb_prop in E as [Ec E].
    apply Ascii.eqb_eq in Ec.
    assert (Hc : PyStr.lower_char c = c)
      by (apply lower_char_high; rewrite <- Ec; reflexivity).
    rewrite Hc in Ec. subst c.
    destruct (PyStr.lower_go 0 s) as [|b t] eqn:El; [discriminate |].
    apply andb_prop in E as [Eb E]. apply Ascii.eqb_eq in Eb. subst b.
    destruct (lower_go_head s t _ El eq_refl) as [s' ->].
    cbn in El. injection El as <-.
    destruct (PyStr.lower_go 0 s') as [|b t] eqn:El; [discriminate |].
    apply andb_prop in E as [Eb _]. apply Ascii.eqb_eq in Eb. subst b.
    apply lower_go_head in El as [s'' ->]; [| reflexivity].
    discriminate H2.
Qed.

Lemma startswith_split (s pre : string) :
  PyStr.startswith s pre = true -> exists r, s = pre +:+ r.
Proof.
  revert s; induction pre as [|a pre IH]; intros s H.
  - now exists s.
  - destruct s as [|b s]; [discriminate |]. cbn in H.
    apply andb_prop in H as [Hb H]. apply Ascii.eqb_eq in Hb. subst b.
    destruct (IH _ H) as [r ->]. now exists r.
Qed.

Lemma lower_go_idem (n : nat) (s : string) :
  String.length s <= n ->
  PyStr.lower_go 0 (PyStr.lower_go 0 s) = PyStr.lower_go 0 s.
Proof.
  revert s; induction n as [|n IH]; intros s Hn.
  - destruct s; [reflexivity | simpl in Hn; lia].
  - destruct s as [|c s]; [reflexivity |].
    cbn [PyStr.lower_go].
    destruct (PyStr.startswith (String c s) PyStr.DOTTED_I) eqn:E1.
    { apply startswith_split in E1 as [r Hr]. cbn in Hr.
      injection Hr as -> ->. cbn. f_equal. f_equal. f_equal.
      apply IH. simpl in Hn. lia. }
    destruct (PyStr.startswith (String c s) PyStr.KELVIN) eqn:E2.
    { apply startswith_split in E2 as [r Hr]. cbn in Hr.
      injection Hr as -> ->. cbn. f_equal.
      apply IH. simpl in Hn. lia. }
    destruct (lower_go_plain c s E1 E2) as [F1 F2].
    cbn [PyStr.lower_go]. rewrite F1, F2, lower_char_idem. f_equal.
    apply IH. simpl in Hn. lia.
Qed.

Lemma lower_idem (s : string) : PyStr.lower (PyStr.lower s) = PyStr.lower s.
Proof. exact (lower_go_idem (String.length s) s (le_n _)). Qed.

Lemma build_encode_args_cases (m : string) :
  build_encode_args m =
  if String.eqb (PyStr.lower m) "smallest" then smallest_args
  else if String.eqb (PyStr.lower m) "smaller" then smaller_args
  else normal_args.
Proof. reflexivity. Qed.

(** C2, as stated, fails: [Smaller] is none of the three lower-case names
    and does not get the normal row. *)
Lemma build_encode_args_capitalised_not_normal :
  "Smaller" <> "normal" /\ "Smaller" <> "smaller" /\ "Smaller" <> "smallest" /\
  build_encode_args "Smaller" = smaller_args /\
  build_encode_args "Smaller" <> normal_args.
Proof. repeat split; discriminate. Qed.

(** C2, amended.  The builder returns one of the three rows, chosen by the
    lower-case form of the mode: [normal] gives libx264, medium, CRF 18,
    AAC 192k; [smaller] gives libx264, medium, CRF 24, AAC 160k; [smallest]
    gives libx265, medium, CRF 28, AAC 128k; a mode whose lower-case form is
    none of the three gives the normal row. *)
Theorem build_encode_args_table (m : string) :
  (build_encode_args m = normal_args \/
   build_encode_args m = smaller_args \/
   build_encode_args m = smallest_args) /\
  (PyStr.lower m = "normal" -> build_encode_args m = normal_args) /\
  (PyStr.lower m = "smaller" -> build_encode_args m = smaller_args) /\
  (PyStr.lower m = "smallest" -> build_encode_args m = smallest_args) /\
  (PyStr.lower m <> "normal" -> PyStr.lower m <> "smaller" ->
   PyStr.lower m <> "smallest" -> build_encode_args m = normal_args).
Proof.
  rewrite build_encode_args_cases.
  split; [| split; [| split; [| split]]].
  - destruct (String.eqb _ "smallest"); [auto |].
    destruct (String.eqb _ "smaller"); auto.
  - intros ->. reflexivity.
  - intros ->. reflexivity.
  - intros ->. reflexivity.
  - intros _ H2 H3.
    apply String.eqb_neq in H2, H3. now rewrite H3, H2.
Qed.

Lemma build_encode_args_table_witness :
  (PyStr.lower "SMALLEST" = "smallest" /\
   build_encode_args "SMALLEST" = smallest_args) /\
  (PyStr.lower "Smaller" = "smaller" /\
   build_encode_args "Smaller" = smaller_args) /\
  (PyStr.lower "normal" = "normal" /\
   build_encode_args "normal" = normal_args) /\
  (PyStr.lower "Fast" <> "normal" /\ PyStr.lower "Fast" <> "smaller" /\
   PyStr.lower "Fast" <> "smallest" /\
   build_encode_args "Fast" = normal_args).
Proof.
  split; [| split; [| split]].
  - split; [reflexivity |].
    destruct (build_encode_args_table "SMALLEST") as (_ & _ & _ & H & _).
    apply H. reflexivity.
  - split; [reflexivity |].
    destruct (build_encode_args_table "Smaller") as (_ & _ & H & _).
    apply H. reflexivity.
  - split; [reflexivity |].
    destruct (build_encode_args_table "normal") as (_ & H & _).
    apply H. reflexivity.
  - split; [discriminate | split; [discriminate | split; [discriminate |]]].
    destruct (build_encode_args_table "Fast") as (_ & _ & _ & _ & H).
    apply H; discriminate.
Defined.

(** C9.  The mode is matched without regard to case: a mode and its
    lower-case form get the same row, so the names the mode selector
    offers, [Normal], [Smaller] and [Smallest], get their own rows. *)
Theorem build_encode_args_case_insensitive :
  (forall m : string, build_encode_args m = build_encode_args (PyStr.lower m)) /\
  build_encode_args "Normal" = normal_args /\
  build_encode_args "Smaller" = smaller_args /\
  build_encode_args "Smallest" = smallest_args /\
  smaller_args <> normal_args /\ smallest_args <> normal_args.
Proof.
  split; [| repeat split; discriminate].
  intros m. rewrite !build_encode_args_cases, lower_idem. reflexivity.
Qed.

(** ** The filter chain *)

Lemma build_filter_complex_stages (en_srt vi_srt : string) (ds : bool)
    (fs enm vim : Z) :
  build_filter_complex en_srt vi_srt ds fs enm vim =
  render_stage (english_stage en_srt fs enm) +:+ ";" +:+
  render_stage (vietnamese_stage vi_srt fs vim) +:+ ";" +:+ final_stage ds.
Proof.
  unfold build_filter_complex, render_stage, english_stage, vietnamese_stage,
    final_stage, scale_stage, format_stage.
  cbn [stage_input stage_file stage_alignment stage_margin stage_style
       stage_output].
  change (PyStr.of_int 2) with "2".
  destruct ds; repeat (rewrite ?str_app_assoc; simpl); reflexivity.
Qed.

(** C3.  For all paths and margins the chain is the English stage, then
    the Vietnamese stage, then the final stage.  The English stage reads
    the input video [0:v], has Alignment=2 and the English margin, and
    writes [v1]; the Vietnamese stage reads [v1], has the same alignment
    and style and the Vietnamese margin.  A new window has the margins 60
    and 24, and 60 exceeds 24. *)
Theorem build_filter_complex_two_stages :
  (forall (en_srt vi_srt : string) (ds : bool) (fs enm vim : Z),
     let s1 := english_stage en_srt fs enm in
     let s2 := vietnamese_stage vi_srt fs vim in
     build_filter_complex en_srt vi_srt ds fs enm vim =
       render_stage s1 +:+ ";" +:+ render_stage s2 +:+ ";" +:+ final_stage ds
     /\ stage_input s1 = "0:v"
     /\ stage_file s1 = ffmpeg_escape_for_subtitles en_srt
     /\ stage_alignment s1 = 2%Z /\ stage_margin s1 = enm
     /\ stage_input s2 = stage_output s1
     /\ stage_file s2 = ffmpeg_escape_for_subtitles vi_srt
     /\ stage_alignment s2 = stage_alignment s1
     /\ stage_style s2 = stage_style s1
     /\ stage_margin s2 = vim) /\
  (forall h : Host,
     App.en_margin_var (App.__init__ h) = Some 60%Z /\
     App.vi_margin_var (App.__init__ h) = Some 24%Z /\
     exists en vi : Z,
       App.en_margin_var (App.__init__ h) = Some en /\
       App.vi_margin_var (App.__init__ h) = Some vi /\ (vi < en)%Z) /\
  EN_MARGIN_V = 60%Z /\ VI_MARGIN_V = 24%Z /\ (VI_MARGIN_V < EN_MARGIN_V)%Z.
Proof.
  split; [| split; [| split; [reflexivity | split; [reflexivity |]]]].
  3: unfold VI_MARGIN_V, EN_MARGIN_V; lia.
  2: { intros h. split; [reflexivity | split; [reflexivity |]].
       exists 60%Z, 24%Z. split; [reflexivity | split; [reflexivity | lia]]. }
  intros en_srt vi_srt ds fs enm vim s1 s2.
  split; [apply build_filter_complex_stages | repeat split].
Qed.

(** C4.  With the downscale flag the chain ends with the stage
    [[v2]scale=-2:720[vout]] and not with the format stage; without it the
    chain ends with [[v2]format=yuv420p[vout]] and not with the scale
    stage.  In both cases the stage follows the two subtitle stages. *)
Theorem build_filter_complex_final_stage (en_srt vi_srt : string) (ds : bool)
    (fs enm vim : Z) :
  let chain := build_filter_complex en_srt vi_srt ds fs enm vim in
  chain = render_stage (english_stage en_srt fs enm) +:+ ";" +:+
          render_stage (vietnamese_stage vi_srt fs vim) +:+ ";" +:+
          (if ds then "[v2]scale=-2:720[vout]" else "[v2]format=yuv420p[vout]")
  /\ PyStr.endswith chain "[v2]scale=-2:720[vout]" = ds
  /\ PyStr.endswith chain "[v2]format=yuv420p[vout]" = negb ds.
Proof.
  intros chain. subst chain.
  rewrite build_filter_complex_stages.
  split; [destruct ds; reflexivity |].
  rewrite <- !str_app_assoc.
  set (pre := (_ +:+ ";")).
  destruct ds; cbn [final_stage negb]; split;
    try apply endswith_app;
    unfold PyStr.endswith, String.rev, scale_stage, format_stage;
    rewrite rev_app_app; reflexivity.
Qed.

(** ** The command line *)

Lemma run_ffmpeg_cmd_shape (ffmpeg video en_srt vi_srt out_path mode : string)
    (ds : bool) (fs enm vim : Z) :
  run_ffmpeg_cmd ffmpeg video en_srt vi_srt out_path mode ds fs enm vim =
  [ffmpeg; "-y"; "-i"; video; "-filter_complex";
   build_filter_complex en_srt vi_srt ds fs enm vim;
   "-map"; "[vout]"; "-map"; "0:a?"]
  ++ (fst (build_encode_args mode) ++ snd (build_encode_args mode))
  ++ ["-movflags"; "+faststart"; out_path].
Proof.
  unfold run_ffmpeg_cmd.
  destruct (build_encode_args mode) as [v a]. cbn [fst snd].
  now rewrite <- !app_assoc.
Qed.

(** C7.  Whatever the job, the argument list starts with the executable
    and [-y], has [-map [vout]] and [-map 0:a?], where the question mark
    makes the audio stream optional, has [-movflags +faststart], and ends
    with the output path.  [run_ffmpeg] starts the child with this list
    whenever the executable is resolved, and ends as the child's run
    ends. *)
Theorem run_ffmpeg_cmd_flags (ffmpeg video en_srt vi_srt out_path mode : string)
    (ds : bool) (fs enm vim : Z) :
  let cmd :=
    run_ffmpeg_cmd ffmpeg video en_srt vi_srt out_path mode ds fs enm vim in
  cmd !! 0%nat = Some ffmpeg /\
  cmd !! 1%nat = Some "-y" /\
  adjacent "-map" "[vout]" cmd /\
  adjacent "-map" "0:a?" cmd /\
  adjacent "-movflags" "+faststart" cmd /\
  last cmd = Some out_path /\
  forall h : Host,
    run_ffmpeg h video en_srt vi_srt out_path mode ds fs enm vim =
    match ffmpeg_path_guess h with
    | Ok f =>
        popen h
          (run_ffmpeg_cmd f video en_srt vi_srt out_path mode ds fs enm vim)
    | Raise e => Raise e
    end.
Proof.
  intros cmd. subst cmd. rewrite run_ffmpeg_cmd_shape.
  set (enc := fst _ ++ snd _).
  repeat apply conj.
  - reflexivity.
  - reflexivity.
  - exists [ffmpeg; "-y"; "-i"; video; "-filter_complex";
             build_filter_complex en_srt vi_srt ds fs enm vim].
    eexists. reflexivity.
  - exists [ffmpeg; "-y"; "-i"; video; "-filter_complex";
             build_filter_complex en_srt vi_srt ds fs enm vim;
             "-map"; "[vout]"].
    eexists. reflexivity.
  - exists ([ffmpeg; "-y"; "-i"; video; "-filter_complex";
              build_filter_complex en_srt vi_srt ds fs enm vim;
              "-map"; "[vout]"; "-map"; "0:a?"] ++ enc), [out_path].
    now rewrite <- app_assoc.
  - rewrite !app_assoc.
    change ["-movflags"; "+faststart"; out_path]
      with (["-movflags"; "+faststart"] ++ [out_path]).
    rewrite app_assoc. apply last_snoc.
  - intros h. unfold run_ffmpeg, bind.
    destruct (ffmpeg_path_guess h); reflexivity.
Qed.

(** ** Finding the executable *)

(** C8.  [ffmpeg_path_guess] returns what the search path gives when it
    gives something; otherwise, on Windows, it returns the file of the
    directory [C:/ffmpeg/bin] when that file exists; otherwise it raises
    [FileNotFoundError] and returns no path. *)
Theorem ffmpeg_path_guess_spec (h : Host) :
  (forall p : string, on_search_path h p -> ffmpeg_path_guess h = Ok p) /\
  (not_on_search_path h -> system h = "Windows" ->
   exists_ h "C:/ffmpeg/bin/ffmpeg.exe" = true ->
   ffmpeg_path_guess h = Ok "C:\ffmpeg\bin\ffmpeg.exe") /\
  (not_on_search_path h ->
   system h <> "Windows" \/ exists_ h "C:/ffmpeg/bin/ffmpeg.exe" = false ->
   ffmpeg_path_guess h = Raise tool_not_found /\
   forall p : string, ffmpeg_path_guess h <> Ok p).
Proof.
  unfold on_search_path, not_on_search_path, ffmpeg_path_guess.
  split; [| split].
  - intros p [-> Hp]. destruct p; [congruence | reflexivity].
  - intros Hw Hs He.
    assert (String.eqb (system h) "Windows" = true) as -> by now rewrite Hs.
    unfold win_candidate. rewrite He.
    destruct Hw as [-> | ->]; reflexivity.
  - intros Hw Hno.
    assert (String.eqb (system h) "Windows" && exists_ h win_candidate = false)
      as Hc.
    { destruct Hno as [Hs | He].
      - apply String.eqb_neq in Hs. now rewrite Hs.
      - unfold win_candidate. rewrite He. apply andb_false_r. }
    destruct Hw as [-> | ->]; rewrite Hc; split; try reflexivity;
      intros p; discriminate.
Qed.

Lemma ffmpeg_path_guess_spec_witness :
  let h1 := test_host [] [] in
  let h2 :=
    {| which := fun _ => Some "/usr/bin/ffmpeg"; system := "Linux";
       exists_ := fun _ => false; isfile := fun _ => false;
       isdir := fun _ => false; home := "/"; popen := fun _ => Ok 0%Z |} in
  let h3 :=
    {| which := fun _ => None; system := "Windows";
       exists_ := fun _ => true; isfile := fun _ => false;
       isdir := fun _ => false; home := "C:\"; popen := fun _ => Ok 0%Z |} in
  (on_search_path h2 "/usr/bin/ffmpeg" /\
   ffmpeg_path_guess h2 = Ok "/usr/bin/ffmpeg") /\
  (not_on_search_path h3 /\ ffmpeg_path_guess h3 = Ok "C:\ffmpeg\bin\ffmpeg.exe") /\
  (not_on_search_path h1 /\ ffmpeg_path_guess h1 = Raise tool_not_found).
Proof.
  intros h1 h2 h3.
  assert (on_search_path h2 "/usr/bin/ffmpeg") as H2
    by (split; [reflexivity | discriminate]).
  assert (not_on_search_path h3) as H3 by (left; reflexivity).
  assert (not_on_search_path h1) as H1 by (left; reflexivity).
  split; [| split].
  - split; [exact H2 |].
    destruct (ffmpeg_path_guess_spec h2) as (H & _). apply H. exact H2.
  - split; [exact H3 |].
    destruct (ffmpeg_path_guess_spec h3) as (_ & H & _).
    apply H; [exact H3 | reflexivity | reflexivity].
  - split; [exact H1 |].
    destruct (ffmpeg_path_guess_spec h1) as (_ & _ & H).
    apply H; [exact H1 | left; discriminate].
Defined.

(** ** Paths *)

Section PathFacts.

Lemma has_char_app (c : ascii) (a b : string) :
  has_char c (a +:+ b) = has_char c a || has_char c b.
Proof.
  induction a as [|x a IH]; simpl; [reflexivity |].
  now rewrite IH, orb_assoc.
Qed.











End PathFacts.

(** ** Start validation *)

Lemma start_files_check (h : Host) (a : App.t) :
  forallb (isfile h)
    [PyStr.strip (App.video_path a); PyStr.strip (App.en_srt_path a);
     PyStr.strip (App.vi_srt_path a)] = files_valid h a.
Proof.
  unfold files_valid. cbn [forallb].
  now rewrite andb_true_r, andb_assoc.
Qed.

Lemma inputs_valid_iff (h : Host) (a : App.t) :
  inputs_valid h a <->
  files_valid h a = true /\ isdir h (PyStr.strip (App.out_dir a)) = true.
Proof.
  unfold inputs_valid, files_valid.
  rewrite !andb_true_iff. tauto.
Qed.

Lemma start_launch (W : WinPaths) (h : Host) (a : App.t) (fs em vm : Z) :
  inputs_valid h a ->
  App.font_size_var a = Some fs -> App.en_margin_var a = Some em ->
  App.vi_margin_var a = Some vm ->
  App._start W h a =
  (App.progress_start (App.set_status_text "Starting FFmpeg…" a),
   [App.thread_start (start_job W h a fs em vm)]).
Proof.
  intros [Hv Hd]%inputs_valid_iff Hfs Hem Hvm. unfold App._start.
  now rewrite start_files_check, Hv, Hd, Hfs, Hem, Hvm.
Qed.

Lemma start_refuse (W : WinPaths) (h : Host) (a : App.t) :
  ~ inputs_valid h a ->
  fst (App._start W h a) = a /\
  exists title msg : string,
    snd (App._start W h a) = [App.showerror title msg].
Proof.
  intros Hn. unfold App._start. rewrite start_files_check.
  destruct (files_valid h a) eqn:Hv; cbn [negb]; [| eauto].
  destruct (isdir h (PyStr.strip (App.out_dir a))) eqn:Hd; cbn [negb];
    [| eauto].
  exfalso. apply Hn, inputs_valid_iff. now split.
Qed.

Lemma inputs_valid_dec (h : Host) (a : App.t) :
  inputs_valid h a \/ ~ inputs_valid h a.
Proof.
  destruct (files_valid h a) eqn:Hv.
  - destruct (isdir h (PyStr.strip (App.out_dir a))) eqn:Hd.
    + left. apply inputs_valid_iff. now split.
    + right. intros [_ H]%inputs_valid_iff. congruence.
  - right. intros [H _]%inputs_valid_iff. congruence.
Qed.

(** When the checks pass and a numeric setting cannot be read, the status
    line and the progress bar are set and no thread is started. *)
Lemma start_unreadable (W : WinPaths) (h : Host) (a : App.t) :
  inputs_valid h a -> ~ settings_readable a ->
  App._start W h a =
  (App.progress_start (App.set_status_text "Starting FFmpeg…" a),
   [App.tcl_error]).
Proof.
  intros [Hv Hd]%inputs_valid_iff Hn. unfold App._start.
  rewrite start_files_check, Hv, Hd. cbn [negb].
  destruct (App.font_size_var a) as [fs|] eqn:Hfs; [| reflexivity].
  destruct (App.en_margin_var a) as [em|] eqn:Hem; [| reflexivity].
  destruct (App.vi_margin_var a) as [vm|] eqn:Hvm; [| reflexivity].
  exfalso. apply Hn. unfold settings_readable.
  rewrite Hfs, Hem, Hvm. eauto.
Qed.

Lemma start_launches_valid (W : WinPaths) (h : Host) (a : App.t) :
  launches (App._start W h a) -> inputs_valid h a /\ settings_readable a.
Proof.
  intros [j Hj].
  destruct (inputs_valid_dec h a) as [Hv | Hn].
  - split; [exact Hv |].
    destruct (App.font_size_var a) as [fs|] eqn:Hfs;
      [destruct (App.en_margin_var a) as [em|] eqn:Hem;
       [destruct (App.vi_margin_var a) as [vm|] eqn:Hvm |] |].
    1: { unfold settings_readable. rewrite Hfs, Hem, Hvm. eauto. }
    all: exfalso;
      rewrite (start_unreadable W h a Hv) in Hj;
      [ destruct Hj as [Hj | []]; discriminate
      | unfold settings_readable; rewrite ?Hfs, ?Hem, ?Hvm;
        intros (H1 & H2 & H3);
        first [ now destruct H1 | now destruct H2 | now destruct H3 ] ].
  - exfalso. destruct (start_refuse W h a Hn) as (_ & title & msg & Hs).
    rewrite Hs in Hj. destruct Hj as [Hj | []]. discriminate.
Qed.

Lemma start_launches_iff (W : WinPaths) (h : Host) (a : App.t) :
  launches (App._start W h a) <-> inputs_valid h a /\ settings_readable a.
Proof.
  split; [apply start_launches_valid |].
  intros [Hv ([fs Hfs] & [em Hem] & [vm Hvm])].
  rewrite (start_launch W h a fs em vm Hv Hfs Hem Hvm).
  eexists. left. reflexivity.
Qed.

Lemma start_same_inputs (W : WinPaths) (h : Host) (a : App.t) :
  same_inputs a (fst (App._start W h a)).
Proof.
  unfold App._start.
  destruct (negb (forallb _ _)); [repeat split |].
  destruct (negb (isdir h _)); [repeat split |].
  destruct (App.font_size_var a), (App.en_margin_var a), (App.vi_margin_var a);
    repeat split.
Qed.





(** ** Routing dropped paths *)

Section Routing.

Variable W : WinPaths.
Variable h : Host.

Lemma nonempty_true (s : string) : App.nonempty s = true <-> s <> "".
Proof.
  unfold App.nonempty. rewrite negb_true_iff. apply String.eqb_neq.
Qed.

Lemma nonempty_false (s : string) : App.nonempty s = false <-> s = "".
Proof.
  unfold App.nonempty. rewrite negb_false_iff. apply String.eqb_eq.
Qed.

(** The test [any(k in name for k in [...])] of the loop, written out. *)
Lemma hints_unfold (n : string) :
  existsb (fun k => PyStr.contains k n) App.VI_HINTS =
  PyStr.contains "vi" n || PyStr.contains "viet" n
  || PyStr.contains "vietnam" n.
Proof.
  unfold App.VI_HINTS. cbn [existsb]. now rewrite orb_false_r, orb_assoc.
Qed.

Lemma route_path_unfold (a : App.t) (p : string) :
  App.route_path W h a p =
  let q := PyStr.strip p in
  if negb (App.nonempty q) then a
  else if isdir h q then App.set_out_dir q a
  else if bool_decide (ext_of W h q ∈ VID_EXTS) then App.set_video_path q a
  else if String.eqb (ext_of W h q) ".srt" then
    if has_vi_hint W h q then App.set_vi_srt_path q a
    else if negb (App.nonempty (App.en_srt_path a))
         then App.set_en_srt_path q a
         else App.set_vi_srt_path q a
  else a.
Proof.
  unfold App.route_path, has_vi_hint, ext_of, name_of. cbn zeta.
  now rewrite hints_unfold.
Qed.

Lemma srt_not_video (e : string) :
  e = ".srt" -> bool_decide (e ∈ VID_EXTS) = false.
Proof. intros ->. vm_compute. reflexivity. Qed.




Lemma route_path_hint (a : App.t) (p q : string) :
  PyStr.strip p = q -> q <> "" -> isdir h q = false ->
  ext_of W h q = ".srt" -> has_vi_hint W h q = true ->
  App.route_path W h a p = App.set_vi_srt_path q a.
Proof.
  intros Hq Hne%nonempty_true Hd He Hh.
  rewrite route_path_unfold, Hq. cbn zeta.
  now rewrite Hne, Hd, (srt_not_video _ He), He, Hh.
Qed.

Lemma route_path_english (a : App.t) (p q : string) :
  PyStr.strip p = q -> q <> "" -> isdir h q = false ->
  ext_of W h q = ".srt" -> has_vi_hint W h q = false -> App.en_srt_path a = "" ->
  App.route_path W h a p = App.set_en_srt_path q a.
Proof.
  intros Hq Hne%nonempty_true Hd He Hh Hen.
  rewrite route_path_unfold, Hq. cbn zeta.
  now rewrite Hne, Hd, (srt_not_video _ He), He, Hh, Hen.
Qed.



(** The slots a round leaves alone. *)
Lemma route_path_out_dir (a : App.t) (p : string) :
  App.out_dir (App.route_path W h a p) =
  if is_dir_path h p then PyStr.strip p else App.out_dir a.
Proof.
  rewrite route_path_unfold. unfold is_dir_path. cbn zeta.
  destruct (App.nonempty (PyStr.strip p)); cbn [negb andb]; [| reflexivity].
  destruct (isdir h (PyStr.strip p)); [reflexivity |].
  repeat match goal with |- context [if ?b then _ else _] => destruct b end;
    reflexivity.
Qed.


Lemma route_path_keeps_english (a : App.t) (p : string) :
  App.en_srt_path a <> "" ->
  App.en_srt_path (App.route_path W h a p) = App.en_srt_path a.
Proof.
  intros Hen%nonempty_true. rewrite route_path_unfold. cbn zeta.
  rewrite Hen. cbn [negb].
  repeat match goal with |- context [if ?b then _ else _] => destruct b end;
    reflexivity.
Qed.


Lemma route_paths_app (a : App.t) (l1 l2 : list string) :
  App.route_paths W h a (l1 ++ l2) =
  App.route_paths W h (App.route_paths W h a l1) l2.
Proof. unfold App.route_paths. now rewrite fold_left_app. Qed.



Lemma route_paths_keep_english (a : App.t) (l : list string) :
  App.en_srt_path a <> "" ->
  App.en_srt_path (App.route_paths W h a l) = App.en_srt_path a.
Proof.
  revert a; induction l as [|p l IH]; intros a Hen; [reflexivity |].
  change (App.route_paths W h a (p :: l))
    with (App.route_paths W h (App.route_path W h a p) l).
  rewrite IH; rewrite route_path_keeps_english; auto.
Qed.

End Routing.


(** What the loop reads of a simple path is what the POSIX flavour gives,
    on every host that reads simple paths so. *)
Lemma simple_path_reads (W : WinPaths) (h : Host) (q : string) :
  reads_simple_paths W h -> simple_path q = true ->
  ext_of W h q = PyStr.lower (PurePath.suffix (PurePath.parse q)) /\
  name_of W h q = PyStr.lower (PurePath.name (PurePath.parse q)).
Proof.
  intros [Hw | Hw] Hq; unfold ext_of, name_of, HostPath.suffix, HostPath.name.
  - rewrite Hw. split; reflexivity.
  - destruct (on_windows h); [| split; reflexivity].
    destruct (Hw q Hq) as [-> ->]. split; reflexivity.
Qed.

Lemma simple_path_hint (W : WinPaths) (h : Host) (q : string) :
  reads_simple_paths W h -> simple_path q = true ->
  has_vi_hint W h q =
  PyStr.contains "vi" (PyStr.lower (PurePath.name (PurePath.parse q))).
Proof.
  intros Hr Hq. unfold has_vi_hint.
  destruct (simple_path_reads W h q Hr Hq) as [_ ->].
  apply hints_are_vi.
Qed.



(** * Further properties *)

(** ** The added model on concrete inputs *)

Example progress_example :
  progress_reports
    ["ffmpeg version 6.0";
     "frame=  240 fps= 60 q=28.0 size=     512kB time=00:00:10.01 bitrate= 419.0kbits/s";
     "time=   ";
     "x time=1 time=2 y"]
  = ["00:00:10.01"; "1"].
Proof. reflexivity. Qed.

Example split_str_example :
  PyText.split_str "time=" "a time=b time=c" = ["a "; "b "; "c"] /\
  PyText.split_str "ab" "aab" = ["a"; ""] /\
  PyText.words "  a  b c " = ["a"; "b"; "c"] /\
  PyText.words "   " = [].
Proof. repeat split; reflexivity. Qed.

Example dnd_encode_example :
  dnd_encode ["/a/b.mp4"; "/a/my subs.srt"; ""] = "/a/b.mp4 {/a/my subs.srt} {}" /\
  App._parse_dnd_list "/a/b.mp4 {/a/my subs.srt} {}" =
    ["/a/b.mp4"; "/a/my subs.srt"; ""] /\
  App._parse_dnd_list "ab{cd}" = ["cd"] /\
  App._parse_dnd_list "{a b" = ["a b"].
Proof. repeat split; reflexivity. Qed.

Example run_embed_example :
  let h := test_host ["/out"] ["/a/movie.mp4"; "/a/en.srt"; "/a/vi.srt"] in
  let j := App.mk_job "/a/movie.mp4" "/a/en.srt" "/a/vi.srt"
             "/out/movie_dual_subbed.mp4" "Smaller" false 24 60 24 in
  Handlers._run_embed h [] "0.0" j (App.__init__ h) =
  (App.set_status_text
     "FFmpeg executable not found. Install it or add to PATH."
     (App.__init__ h),
   [Handlers.showerror "Error"
      "FFmpeg executable not found. Install it or add to PATH."]).
Proof. reflexivity. Qed.

(** ** Escaping, read back *)

Lemma str_length_app (a b : string) :
  String.length (a +:+ b) = String.length a + String.length b.
Proof. induction a as [|x a IH]; simpl; [reflexivity | now rewrite IH]. Qed.

Lemma str_app_inv_tail (a b t : string) : a +:+ t = b +:+ t -> a = b.
Proof.
  revert b; induction a as [|x a IH]; intros [|y b] H; simpl in H.
  - reflexivity.
  - apply (f_equal String.length) in H. simpl in H.
    rewrite str_length_app in H. lia.
  - apply (f_equal String.length) in H. simpl in H.
    rewrite str_length_app in H. lia.
  - injection H as -> H. f_equal. now apply IH.
Qed.

Lemma escape_char_cases (c : ascii) :
  (c = "\"%char /\ escape_char c = "\\") \/
  (c = ":"%char /\ escape_char c = "\:") \/
  (c = "'"%char /\ escape_char c = "\'") \/
  (Ascii.eqb c "\" = false /\ Ascii.eqb c ":" = false /\
   Ascii.eqb c "'" = false /\ escape_char c = String c "").
Proof.
  unfold escape_char.
  destruct (Ascii.eqb_spec c "\") as [-> | _]; [now left |].
  destruct (Ascii.eqb_spec c ":") as [-> | _]; [right; now left |].
  destruct (Ascii.eqb_spec c "'") as [-> | _]; [right; right; now left |].
  right; right; right. repeat split; reflexivity.
Qed.

Lemma unescape_escape (p rest : string) :
  unescape_go false (escape_chars p +:+ rest) = p +:+ unescape_go false rest.
Proof.
  induction p as [|c p IH]; [reflexivity |].
  cbn [escape_chars]. rewrite str_app_assoc.
  destruct (escape_char_cases c)
    as [[-> ->] | [[-> ->] | [[-> ->] | (E1 & E2 & E3 & ->)]]];
    cbn [String.append unescape_go]; rewrite ?E1; cbn; now rewrite IH.
Qed.

Lemma escapes_ok_escape (p rest : string) :
  escapes_ok false (escape_chars p +:+ rest) = escapes_ok false rest.
Proof.
  induction p as [|c p IH]; [reflexivity |].
  cbn [escape_chars]. rewrite str_app_assoc.
  destruct (escape_char_cases c)
    as [[-> ->] | [[-> ->] | [[-> ->] | (E1 & E2 & E3 & ->)]]];
    cbn [String.append escapes_ok]; rewrite ?E1, ?E2, ?E3; cbn; now rewrite IH.
Qed.

Lemma escape_wrapped (path : string) :
  ffmpeg_escape_for_subtitles path = "'" +:+ escape_chars path +:+ "'".
Proof. unfold ffmpeg_escape_for_subtitles. now rewrite three_replaces_escape. Qed.

(** X1.  What stands between the two quotes of an escaped path reads back
    as the path when the escapes are removed, and in it no colon and no
    quote is bare and no backslash is left dangling. *)
Theorem escape_reads_back (path : string) :
  exists body : string,
    ffmpeg_escape_for_subtitles path = "'" +:+ body +:+ "'" /\
    unescape_go false body = path /\
    escapes_ok false body = true.
Proof.
  exists (escape_chars path). split; [apply escape_wrapped |].
  split.
  - rewrite <- (str_app_nil_r (escape_chars path)), unescape_escape.
    apply str_app_nil_r.
  - rewrite <- (str_app_nil_r (escape_chars path)), escapes_ok_escape.
    reflexivity.
Qed.

(** X2.  Two different paths never get the same escaped form. *)
Theorem escape_injective (p q : string) :
  ffmpeg_escape_for_subtitles p = ffmpeg_escape_for_subtitles q -> p = q.
Proof.
  rewrite !escape_wrapped. intros H. simpl in H. injection H as H.
  apply (f_equal (unescape_go false)) in H.
  rewrite !unescape_escape in H. now apply str_app_inv_tail in H.
Qed.

Lemma escape_injective_witness :
  ffmpeg_escape_for_subtitles "C:\a" = ffmpeg_escape_for_subtitles "C:\a" /\
  "C:\a" = "C:\a".
Proof.
  split; [reflexivity |].
  apply (escape_injective "C:\a" "C:\a"). reflexivity.
Defined.

Lemma escape_chars_length (p : string) :
  String.length p <= String.length (escape_chars p).
Proof.
  induction p as [|c p IH]; [reflexivity |].
  cbn [escape_chars]. rewrite str_length_app.
  destruct (escape_char_cases c)
    as [[-> ->] | [[-> ->] | [[-> ->] | (_ & _ & _ & ->)]]]; simpl; lia.
Qed.

Lemma escape_chars_plain (p : string) :
  escape_chars p = p <-> plain_path p = true.
Proof.
  unfold plain_path. induction p as [|c p IH]; [now split |].
  cbn [escape_chars has_char].
  destruct (escape_char_cases c)
    as [[-> ->] | [[-> ->] | [[-> ->] | (E1 & E2 & E3 & ->)]]].
  - split; [| discriminate]. simpl. intros H. injection H as H.
    pose proof (escape_chars_length p) as Hl.
    apply (f_equal String.length) in H. simpl in H. lia.
  - split; [| simpl; rewrite ?andb_false_r; discriminate].
    simpl. discriminate.
  - split; [| simpl; rewrite ?andb_false_r; discriminate].
    simpl. discriminate.
  - rewrite E1, E2, E3. cbn [orb String.append].
    rewrite <- IH. split; [intros H; now injection H | now intros ->].
Qed.

(** X3.  The escape only wraps a path in quotes exactly when the path has
    no backslash, no colon and no single quote. *)
Theorem escape_plain_path (path : string) :
  ffmpeg_escape_for_subtitles path = "'" +:+ path +:+ "'" <->
  plain_path path = true.
Proof.
  rewrite escape_wrapped, <- escape_chars_plain. split.
  - intros H. simpl in H. injection H as H. now apply str_app_inv_tail in H.
  - now intros ->.
Qed.

Lemma escape_plain_path_witness :
  plain_path "/home/u/a b.srt" = true /\
  ffmpeg_escape_for_subtitles "/home/u/a b.srt" = "'/home/u/a b.srt'" /\
  plain_path "C:\a.srt" = false.
Proof.
  split; [reflexivity | split; [| reflexivity]].
  apply (escape_plain_path "/home/u/a b.srt"). reflexivity.
Defined.

(** ** The drop payload parser *)

Section DndParser.

Lemma parse_dnd_items (d : string) (items : list string) (tok : string)
    (b : bool) :
  App.parse_dnd_loop d items tok b = items ++ App.parse_dnd_loop d [] tok b.
Proof.
  revert items tok b; induction d as [|ch d IH]; intros items tok b.
  - cbn [App.parse_dnd_loop]. destruct (App.nonempty tok);
      [reflexivity | now rewrite app_nil_r].
  - cbn [App.parse_dnd_loop].
    destruct (Ascii.eqb ch "{"); [apply IH |].
    destruct (Ascii.eqb ch "}").
    { rewrite (IH (items ++ [tok])), (IH ([] ++ [tok])).
      now rewrite app_assoc. }
    destruct (Ascii.eqb ch " " && negb b); [| apply IH].
    destruct (App.nonempty tok); [| apply IH].
    rewrite (IH (items ++ [tok])), (IH ([] ++ [tok])).
    now rewrite app_assoc.
Qed.

(** Characters that are no braces are added to the token inside a brace. *)
Lemma parse_dnd_in_brace (p rest : string) (items : list string)
    (tok : string) :
  no_brace p = true ->
  App.parse_dnd_loop (p +:+ rest) items tok true =
  App.parse_dnd_loop rest items (tok +:+ p) true.
Proof.
  unfold no_brace. revert tok; induction p as [|c p IH]; intros tok H.
  - now rewrite str_app_nil_r.
  - cbn [has_char] in H.
    rewrite !negb_orb, !andb_true_iff, !negb_true_iff in H.
    destruct H as [[Ho Hp1] [Hc Hp2]].
    cbn [String.append App.parse_dnd_loop]. rewrite Ho, Hc.
    cbn [negb andb]. rewrite andb_false_r.
    rewrite IH by now rewrite Hp1, Hp2.
    now rewrite str_app_assoc.
Qed.

(** Outside a brace the same holds for characters that are no spaces
    either. *)
Lemma parse_dnd_bare (p rest : string) (items : list string) (tok : string) :
  no_brace p = true -> has_char " " p = false ->
  App.parse_dnd_loop (p +:+ rest) items tok false =
  App.parse_dnd_loop rest items (tok +:+ p) false.
Proof.
  unfold no_brace. revert tok; induction p as [|c p IH]; intros tok H Hs.
  - now rewrite str_app_nil_r.
  - cbn [has_char] in H, Hs.
    rewrite !negb_orb, !andb_true_iff, !negb_true_iff in H.
    destruct H as [[Ho Hp1] [Hc Hp2]].
    apply orb_false_iff in Hs as [Hsp Hs].
    cbn [String.append App.parse_dnd_loop]. rewrite Ho, Hc, Hsp.
    cbn [negb andb].
    rewrite IH by (try assumption; now rewrite Hp1, Hp2).
    now rewrite str_app_assoc.
Qed.

Lemma parse_dnd_quote (p rest : string) (items : list string) :
  no_brace p = true ->
  App.parse_dnd_loop (dnd_quote p +:+ rest) items "" false =
  if bare_token p then App.parse_dnd_loop rest items p false
  else App.parse_dnd_loop rest (items ++ [p]) "" false.
Proof.
  intros Hb. unfold dnd_quote.
  destruct (bare_token p) eqn:Hbare.
  - unfold bare_token in Hbare.
    apply andb_true_iff in Hbare as [[_ Hs]%andb_true_iff _].
    apply negb_true_iff in Hs.
    now rewrite parse_dnd_bare.
  - rewrite !str_app_assoc. cbn [String.append App.parse_dnd_loop Ascii.eqb].
    change (Ascii.eqb "{" "{") with true. cbv iota.
    rewrite parse_dnd_in_brace by assumption.
    cbn [String.append App.parse_dnd_loop].
    change (Ascii.eqb "}" "{") with false.
    change (Ascii.eqb "}" "}") with true. cbv iota. reflexivity.
Qed.

Lemma bare_token_nonempty (p : string) :
  bare_token p = true -> App.nonempty p = true.
Proof. unfold bare_token. now intros [_ H]%andb_true_iff. Qed.

Lemma parse_dnd_encode (paths items : list string) :
  forallb no_brace paths = true ->
  App.parse_dnd_loop (dnd_encode paths) items "" false = items ++ paths.
Proof.
  unfold dnd_encode.
  revert items; induction paths as [|p [|q paths] IH]; intros items H.
  - cbn. now rewrite app_nil_r.
  - cbn [forallb] in H. apply andb_true_iff in H as [Hp _].
    cbn [map PyStr.join].
    rewrite <- (str_app_nil_r (dnd_quote p)), parse_dnd_quote by assumption.
    destruct (bare_token p) eqn:Hb; cbn [App.parse_dnd_loop].
    + now rewrite (bare_token_nonempty _ Hb).
    + reflexivity.
  - cbn [forallb] in H. apply andb_true_iff in H as [Hp Hrest].
    change (map dnd_quote (p :: q :: paths))
      with (dnd_quote p :: map dnd_quote (q :: paths)).
    cbn [PyStr.join]. cbn [map]. fold (map dnd_quote paths).
    rewrite parse_dnd_quote by assumption.
    destruct (bare_token p) eqn:Hb;
      cbn [String.append App.parse_dnd_loop];
      change (Ascii.eqb " " "{") with false;
      change (Ascii.eqb " " "}") with false;
      change (Ascii.eqb " " " ") with true; cbn [negb andb];
      rewrite ?(bare_token_nonempty _ Hb);
      change (App.nonempty "") with false; cbv iota;
      change (dnd_quote q :: map dnd_quote paths)
        with (map dnd_quote (q :: paths));
      rewrite (IH (items ++ [p]) Hrest), <- app_assoc; reflexivity.
Qed.

Lemma parse_dnd_no_brace (d : string) (items : list string) (tok : string)
    (b : bool) :
  forallb no_brace items = true -> no_brace tok = true ->
  forallb no_brace (App.parse_dnd_loop d items tok b) = true.
Proof.
  revert items tok b; induction d as [|ch d IH]; intros items tok b Hi Ht.
  - cbn [App.parse_dnd_loop]. destruct (App.nonempty tok); [| exact Hi].
    rewrite forallb_app, Hi. cbn. now rewrite Ht.
  - assert (forallb no_brace (items ++ [tok]) = true) as Hit
      by (rewrite forallb_app, Hi; cbn; now rewrite Ht).
    cbn [App.parse_dnd_loop].
    destruct (Ascii.eqb ch "{") eqn:Ho; [now apply IH |].
    destruct (Ascii.eqb ch "}") eqn:Hc; [now apply IH |].
    assert (no_brace (tok +:+ String ch "") = true) as Htc.
    { unfold no_brace in *. rewrite !has_char_app. cbn [has_char].
      rewrite Ho, Hc, !orb_false_r. exact Ht. }
    destruct (Ascii.eqb ch " " && negb b); [| now apply IH].
    destruct (App.nonempty tok); now apply IH.
Qed.

Lemma parse_dnd_concat (d1 d2 : string) (items : list string) (tok : string)
    (b : bool) :
  brace_after d1 b = false ->
  App.parse_dnd_loop (d1 +:+ " " +:+ d2) items tok b =
  App.parse_dnd_loop d1 items tok b ++ App.parse_dnd_loop d2 [] "" false.
Proof.
  revert items tok b; induction d1 as [|ch d1 IH]; intros items tok b Hb.
  - cbn [brace_after] in Hb. subst b.
    cbn [String.append App.parse_dnd_loop].
    change (Ascii.eqb " " "{") with false.
    change (Ascii.eqb " " "}") with false.
    change (Ascii.eqb " " " ") with true. cbn [negb andb].
    destruct (App.nonempty tok) eqn:Hn.
    + apply parse_dnd_items.
    + apply nonempty_false in Hn. subst tok. apply parse_dnd_items.
  - cbn [brace_after] in Hb.
    cbn [String.append App.parse_dnd_loop].
    destruct (Ascii.eqb ch "{"); [now apply IH |].
    destruct (Ascii.eqb ch "}"); [now apply IH |].
    destruct (Ascii.eqb ch " " && negb b); [| now apply IH].
    destruct (App.nonempty tok); now apply IH.
Qed.

End DndParser.

(** X4.  The parser reads back the list format of a payload: paths
    without braces, written with the ones that have a space or are empty in
    braces and a space between them, are returned as they were. *)
Theorem parse_dnd_list_reads_back (paths : list string) :
  forallb no_brace paths = true ->
  App._parse_dnd_list (dnd_encode paths) = paths.
Proof.
  intros H. unfold App._parse_dnd_list.
  now rewrite parse_dnd_encode.
Qed.

Lemma parse_dnd_list_reads_back_witness :
  forallb no_brace ["/a/b.mp4"; "/a/my subs.srt"; ""; "x"] = true /\
  App._parse_dnd_list (dnd_encode ["/a/b.mp4"; "/a/my subs.srt"; ""; "x"]) =
  ["/a/b.mp4"; "/a/my subs.srt"; ""; "x"].
Proof.
  split; [reflexivity |].
  apply (parse_dnd_list_reads_back ["/a/b.mp4"; "/a/my subs.srt"; ""; "x"]).
  reflexivity.
Defined.

(** X5.  No path the parser returns contains a brace, whatever the
    payload. *)
Theorem parse_dnd_list_no_brace (data : string) :
  forallb no_brace (App._parse_dnd_list data) = true.
Proof. apply parse_dnd_no_brace; reflexivity. Qed.

(** X6.  Text that runs into an opening brace is lost: a token without
    spaces directly before a brace does not appear in the result. *)
Theorem parse_dnd_list_drops_before_brace (t rest : string) :
  no_brace t = true -> has_char " " t = false ->
  App._parse_dnd_list (t +:+ "{" +:+ rest) =
  App._parse_dnd_list ("{" +:+ rest).
Proof.
  intros Hb Hs. unfold App._parse_dnd_list.
  rewrite parse_dnd_bare by assumption. reflexivity.
Qed.

Lemma parse_dnd_list_drops_before_brace_witness :
  no_brace "/a/x.mp4" = true /\ has_char " " "/a/x.mp4" = false /\
  App._parse_dnd_list "/a/x.mp4{/a/my subs.srt}" = ["/a/my subs.srt"].
Proof.
  split; [reflexivity | split; [reflexivity |]].
  transitivity (App._parse_dnd_list ("{" +:+ "/a/my subs.srt}"));
    [| reflexivity].
  exact (parse_dnd_list_drops_before_brace "/a/x.mp4" "/a/my subs.srt}"
           eq_refl eq_refl).
Defined.

(** X7.  A payload that closes its braces, a space, and a second payload
    parse to the paths of the first followed by the paths of the second;
    dropping them at once on the zone is dropping the first and then the
    second. *)
Theorem multi_drop_concat (W : WinPaths) (h : Host) (a : App.t)
    (d1 d2 : string) :
  brace_after d1 false = false ->
  App._parse_dnd_list (d1 +:+ " " +:+ d2) =
    App._parse_dnd_list d1 ++ App._parse_dnd_list d2 /\
  App._on_multi_drop W h a (d1 +:+ " " +:+ d2) =
    App._on_multi_drop W h (App._on_multi_drop W h a d1) d2.
Proof.
  intros Hb.
  assert (App._parse_dnd_list (d1 +:+ " " +:+ d2) =
          App._parse_dnd_list d1 ++ App._parse_dnd_list d2) as Hp
    by now apply parse_dnd_concat.
  split; [exact Hp |].
  unfold App._on_multi_drop. now rewrite Hp, route_paths_app.
Qed.

Lemma multi_drop_concat_witness :
  let h := test_host ["/out"] [] in
  brace_after "{/a/my movie.mp4} /out" false = false /\
  App._on_multi_drop posix_like h (App.__init__ h) "{/a/my movie.mp4} /out /a/en.srt" =
  App._on_multi_drop posix_like h
    (App._on_multi_drop posix_like h (App.__init__ h) "{/a/my movie.mp4} /out")
    "/a/en.srt".
Proof.
  intros h. split; [reflexivity |].
  apply (multi_drop_concat posix_like h (App.__init__ h) "{/a/my movie.mp4} /out"
           "/a/en.srt").
  reflexivity.
Defined.

(** ** More on routing *)

Section RoutingMore.

Variable W : WinPaths.
Variable h : Host.

Lemma same_settings_refl (a : App.t) : same_settings a a.
Proof. repeat split. Qed.

Lemma same_settings_trans (a b c : App.t) :
  same_settings a b -> same_settings b c -> same_settings a c.
Proof.
  unfold same_settings.
  intros (H1 & H2 & H3 & H4 & H5 & H6 & H7) (G1 & G2 & G3 & G4 & G5 & G6 & G7).
  repeat split; congruence.
Qed.

Ltac case_ifs :=
  repeat match goal with
         | |- context [if ?b then _ else _] => destruct b
         end.

Lemma route_path_settings (a : App.t) (p : string) :
  same_settings a (App.route_path W h a p).
Proof.
  rewrite route_path_unfold. cbn zeta. case_ifs; repeat split.
Qed.

Lemma route_paths_settings (a : App.t) (l : list string) :
  same_settings a (App.route_paths W h a l).
Proof.
  revert a; induction l as [|p l IH]; intros a; [apply same_settings_refl |].
  change (App.route_paths W h a (p :: l))
    with (App.route_paths W h (App.route_path W h a p) l).
  eapply same_settings_trans; [apply route_path_settings | apply IH].
Qed.

(** The English slot after one round. *)
Lemma route_path_english_slot (a : App.t) (p : string) :
  App.en_srt_path (App.route_path W h a p) =
  if plain_srt W h p && negb (App.nonempty (App.en_srt_path a))
  then PyStr.strip p else App.en_srt_path a.
Proof.
  rewrite route_path_unfold. unfold plain_srt. cbn zeta.
  destruct (App.nonempty (PyStr.strip p)); cbn [negb andb]; [| reflexivity].
  destruct (isdir h (PyStr.strip p)); cbn [negb andb]; [reflexivity |].
  destruct (String.eqb (ext_of W h (PyStr.strip p)) ".srt") eqn:He.
  - apply String.eqb_eq in He. rewrite (srt_not_video _ He).
    cbn [andb].
    destruct (has_vi_hint W h (PyStr.strip p)); cbn [negb andb]; [reflexivity |].
    destruct (App.nonempty (App.en_srt_path a)); reflexivity.
  - cbn [andb]. destruct (bool_decide _); reflexivity.
Qed.

Lemma plain_srt_spec (p : string) :
  plain_srt W h p = true <-> is_plain_srt W h p.
Proof.
  unfold plain_srt, is_plain_srt.
  rewrite !andb_true_iff, !negb_true_iff, nonempty_true, String.eqb_eq.
  tauto.
Qed.

End RoutingMore.

(** X8.  A drop on the zone touches the four paths only: the status line,
    the mode, the downscale flag, the font size, the two margins and the
    progress bar are after the drop what they were before. *)
Theorem multi_drop_keeps_settings (W : WinPaths) (h : Host) (a : App.t)
    (event_data : string) :
  same_settings a (App._on_multi_drop W h a event_data).
Proof. unfold App._on_multi_drop. apply route_paths_settings. Qed.

(** X9.  With an empty English slot, the English slot after a drop holds
    the first subtitle file of the drop that has no hint, and stays empty
    when the drop has none: for the English slot the first path wins. *)
Theorem multi_drop_first_plain_srt (W : WinPaths) (h : Host) (a : App.t)
    (paths : list string) :
  App.en_srt_path a = "" ->
  App.en_srt_path (App.route_paths W h a paths) =
  match List.find (plain_srt W h) paths with
  | Some p => PyStr.strip p
  | None => ""
  end.
Proof.
  revert a; induction paths as [|p l IH]; intros a Hen; [exact Hen |].
  change (App.route_paths W h a (p :: l))
    with (App.route_paths W h (App.route_path W h a p) l).
  cbn [List.find].
  pose proof (route_path_english_slot W h a p) as Hp.
  rewrite Hen in Hp. change (negb (App.nonempty "")) with true in Hp.
  rewrite andb_true_r in Hp.
  destruct (plain_srt W h p) eqn:Hplain.
  - rewrite route_paths_keep_english; [exact Hp |].
    rewrite Hp. unfold plain_srt in Hplain.
    rewrite !andb_true_iff in Hplain.
    now apply nonempty_true.
  - apply IH. exact Hp.
Qed.

Lemma multi_drop_first_plain_srt_witness :
  let h := test_host ["/out"] [] in
  App.en_srt_path (App.__init__ h) = "" /\
  App.en_srt_path
    (App.route_paths posix_like h (App.__init__ h)
       ["/out"; "/a/viet.srt"; " /a/one.srt"; "/a/two.srt"]) = "/a/one.srt".
Proof.
  intros h. split; [reflexivity |].
  rewrite (multi_drop_first_plain_srt posix_like h (App.__init__ h)); reflexivity.
Defined.

(** X10.  A subtitle file without a hint and one with a hint, dropped on
    an empty English slot, are routed the same in either order. *)
Theorem multi_drop_order_of_hinted (W : WinPaths) (h : Host) (a : App.t)
    (p1 p2 : string) :
  App.en_srt_path a = "" ->
  plain_srt W h p1 = true -> hinted_srt W h p2 = true ->
  App.route_paths W h a [p1; p2] = App.route_paths W h a [p2; p1] /\
  App.en_srt_path (App.route_paths W h a [p2; p1]) = PyStr.strip p1 /\
  App.vi_srt_path (App.route_paths W h a [p2; p1]) = PyStr.strip p2.
Proof.
  intros Hen (Hn1 & Hd1 & He1 & Hh1)%plain_srt_spec H2.
  unfold hinted_srt in H2.
  rewrite !andb_true_iff, negb_true_iff, nonempty_true, String.eqb_eq in H2.
  destruct H2 as [[[Hn2 Hd2] He2] Hh2].
  unfold App.route_paths. cbn [fold_left].
  rewrite (route_path_english W h a p1 (PyStr.strip p1)) by auto.
  rewrite (route_path_hint W h _ p2 (PyStr.strip p2)) by auto.
  rewrite (route_path_hint W h a p2 (PyStr.strip p2)) by auto.
  rewrite (route_path_english W h _ p1 (PyStr.strip p1)) by auto.
  repeat split.
Qed.

Lemma multi_drop_order_of_hinted_witness :
  let h := test_host [] [] in
  let a := App.__init__ h in
  App.en_srt_path a = "" /\ plain_srt posix_like h "/a/english.srt" = true /\
  hinted_srt posix_like h "/a/sub_vi.srt" = true /\
  App.route_paths posix_like h a ["/a/english.srt"; "/a/sub_vi.srt"] =
  App.route_paths posix_like h a ["/a/sub_vi.srt"; "/a/english.srt"].
Proof.
  intros h a.
  split; [reflexivity | split; [reflexivity | split; [reflexivity |]]].
  apply (multi_drop_order_of_hinted posix_like h a "/a/english.srt" "/a/sub_vi.srt");
    reflexivity.
Defined.

(** X11.  Of the three hints only [vi] decides: a name has a hint exactly
    when its lower-case form contains [vi], so any subtitle file with
    these two letters in its name, such as [movie.en.srt], goes to the
    Vietnamese slot. *)
Theorem vi_hint_is_vi :
  (forall (W : WinPaths) (h : Host) (q : string),
     has_vi_hint W h q = PyStr.contains "vi" (name_of W h q)) /\
  (forall n : string,
     existsb (fun k => PyStr.contains k n) App.VI_HINTS =
     PyStr.contains "vi" n) /\
  (forall (W : WinPaths) (h : Host) (a : App.t),
     reads_simple_paths W h ->
     isdir h "/a/movie.en.srt" = false ->
     App.route_path W h a "/a/movie.en.srt" =
     App.set_vi_srt_path "/a/movie.en.srt" a).
Proof.
  split; [| split].
  - intros W h q. apply hints_are_vi.
  - intros n. rewrite hints_unfold. apply hints_are_vi.
  - intros W h a Hr Hd.
    destruct (simple_path_reads W h "/a/movie.en.srt" Hr eq_refl) as [He _].
    pose proof (simple_path_hint W h "/a/movie.en.srt" Hr eq_refl) as Hh.
    apply (route_path_hint W h a "/a/movie.en.srt" "/a/movie.en.srt");
      [reflexivity | discriminate | exact Hd | rewrite He; reflexivity
      | rewrite Hh; reflexivity].
Qed.

Lemma vi_hint_is_vi_witness :
  let h := test_host [] [] in
  (reads_simple_paths posix_like h /\ isdir h "/a/movie.en.srt" = false) /\
  App.vi_srt_path
    (App.route_path posix_like h (App.__init__ h) "/a/movie.en.srt")
  = "/a/movie.en.srt".
Proof.
  intros h.
  assert (reads_simple_paths posix_like h) as Hr by (left; reflexivity).
  split; [split; [exact Hr | reflexivity] |].
  destruct vi_hint_is_vi as (_ & _ & H).
  rewrite (H posix_like h (App.__init__ h) Hr eq_refl). reflexivity.
Defined.

(** X12.  A drop of paths that are blank, or that are no directories and
    have neither a video extension nor the extension [.srt], changes
    nothing at all. *)
Theorem multi_drop_passed_over (W : WinPaths) (h : Host) (a : App.t)
    (paths : list string) :
  forallb (passed_over W h) paths = true -> App.route_paths W h a paths = a.
Proof.
  revert a; induction paths as [|p l IH]; intros a; [reflexivity |].
  cbn [forallb]. intros [Hp Hl]%andb_true_iff.
  change (App.route_paths W h a (p :: l))
    with (App.route_paths W h (App.route_path W h a p) l).
  rewrite <- (IH a Hl) at 2. f_equal.
  rewrite route_path_unfold. cbn zeta. unfold passed_over in Hp.
  destruct (App.nonempty (PyStr.strip p)); cbn [negb orb] in *;
    [| reflexivity].
  rewrite !andb_true_iff, !negb_true_iff in Hp.
  destruct Hp as [[-> ->] ->]. reflexivity.
Qed.

Lemma multi_drop_passed_over_witness :
  let h := test_host ["/out"] [] in
  forallb (passed_over posix_like h) ["  "; "/a/notes.txt"; "/a/.srt"; "/a/x.srt."]
  = true /\
  App.route_paths posix_like h (App.__init__ h)
    ["  "; "/a/notes.txt"; "/a/.srt"; "/a/x.srt."]
  = App.__init__ h.
Proof.
  intros h. split; [vm_compute; reflexivity |].
  apply (multi_drop_passed_over posix_like h); vm_compute; reflexivity.
Defined.

(** ** The other drop targets *)

Lemma route_paths_out_dir_is_dir (W : WinPaths) (h : Host) (a : App.t)
    (l : list string) :
  App.out_dir (App.route_paths W h a l) = App.out_dir a \/
  isdir h (App.out_dir (App.route_paths W h a l)) = true.
Proof.
  revert a; induction l as [|p l IH]; intros a; [now left |].
  change (App.route_paths W h a (p :: l))
    with (App.route_paths W h (App.route_path W h a p) l).
  destruct (IH (App.route_path W h a p)) as [-> | H]; [| now right].
  rewrite route_path_out_dir. unfold is_dir_path.
  destruct (App.nonempty (PyStr.strip p)); cbn [andb]; [| now left].
  destruct (isdir h (PyStr.strip p)) eqn:Hd; [now right | now left].
Qed.

(** X13.  No drop sets the output folder to something that is not a
    directory: after a drop on the zone or on the folder entry, the folder
    is the one from before or a directory. *)
Theorem drops_set_directories_only (W : WinPaths) (h : Host) (a : App.t)
    (event_data : string) :
  (App.out_dir (App._on_multi_drop W h a event_data) = App.out_dir a \/
   isdir h (App.out_dir (App._on_multi_drop W h a event_data)) = true) /\
  (App.out_dir (Handlers._on_outdir_drop h a event_data) = App.out_dir a \/
   isdir h (App.out_dir (Handlers._on_outdir_drop h a event_data)) = true).
Proof.
  split; [apply route_paths_out_dir_is_dir |].
  unfold Handlers._on_outdir_drop.
  destruct (App._parse_dnd_list event_data) as [|p rest]; [now left |].
  destruct (isdir h p) eqn:Hd; [now right | now left].
Qed.

(** X14.  On the folder entry only the first path of a drop counts, and it
    is taken as it is: when it is not a directory nothing changes, even if
    the zone would have taken a later directory of the same payload. *)
Theorem outdir_drop_first_only (W : WinPaths) (h : Host) (a : App.t)
    (p d : string) :
  bare_token p = true -> bare_token d = true ->
  isdir h p = false -> is_dir_path h d = true ->
  Handlers._on_outdir_drop h a (p +:+ " " +:+ d) = a /\
  App.out_dir (App._on_multi_drop W h a (p +:+ " " +:+ d)) = PyStr.strip d.
Proof.
  intros Hp Hd Hnp Hdd.
  assert (App._parse_dnd_list (p +:+ " " +:+ d) = [p; d]) as Hparse.
  { assert (forallb no_brace [p; d] = true) as Hnb.
    { unfold bare_token in Hp, Hd.
      rewrite !andb_true_iff in Hp, Hd. cbn.
      destruct Hp as [[-> _] _], Hd as [[-> _] _]. reflexivity. }
    pose proof (parse_dnd_encode [p; d] [] Hnb) as H.
    unfold dnd_encode in H. cbn [map PyStr.join] in H.
    unfold dnd_quote in H. rewrite Hp, Hd in H. exact H. }
  unfold Handlers._on_outdir_drop, App._on_multi_drop.
  rewrite Hparse, Hnp. split; [reflexivity |].
  unfold App.route_paths. cbn [fold_left].
  rewrite !route_path_out_dir, Hdd. reflexivity.
Qed.

Lemma outdir_drop_first_only_witness :
  let h := test_host ["/out"] [] in
  (bare_token "/a/x.txt" = true /\ bare_token "/out" = true /\
   isdir h "/a/x.txt" = false /\ is_dir_path h "/out" = true) /\
  Handlers._on_outdir_drop h (App.__init__ h) "/a/x.txt /out" = App.__init__ h /\
  App.out_dir (App._on_multi_drop posix_like h (App.__init__ h) "/a/x.txt /out") = "/out".
Proof.
  intros h. split; [repeat split |].
  apply (outdir_drop_first_only posix_like h (App.__init__ h) "/a/x.txt" "/out");
    reflexivity.
Defined.

(** X15.  A file dropped on a row, with or without a space in its name
    and whatever it is, becomes the value of that row; the other rows, the
    output folder and the settings stay.  So a drop on the English row does
    replace an English slot that is not empty. *)
Theorem entry_drop_sets_row (a : App.t) (p : string) (v : Handlers.var) :
  no_brace p = true ->
  let r := Handlers._on_entry_drop a (dnd_quote p) v in
  Handlers.var_get v r = p /\
  (forall v' : Handlers.var, v' <> v ->
     Handlers.var_get v' r = Handlers.var_get v' a) /\
  App.out_dir r = App.out_dir a /\ same_settings a r.
Proof.
  intros Hp r. subst r. unfold Handlers._on_entry_drop.
  assert (App._parse_dnd_list (dnd_quote p) = [p]) as ->.
  { apply (parse_dnd_encode [p] []). cbn. now rewrite Hp. }
  split; [now destruct v |].
  split; [intros v' Hv; destruct v, v'; try reflexivity; congruence |].
  split; [now destruct v | destruct v; repeat split].
Qed.

Lemma entry_drop_sets_row_witness :
  let a := App.set_en_srt_path "/a/old.srt" (App.__init__ (test_host [] [])) in
  no_brace "/b/my new.srt" = true /\
  App.en_srt_path
    (Handlers._on_entry_drop a "{/b/my new.srt}" Handlers.en_srt_var)
  = "/b/my new.srt".
Proof.
  intros a. split; [reflexivity |].
  apply (entry_drop_sets_row a "/b/my new.srt" Handlers.en_srt_var).
  reflexivity.
Defined.

(** ** Swapping and starting *)

(** X16.  Swapping twice restores the window, and one swap exchanges the
    two subtitle slots and nothing else. *)
Theorem swap_srts_involutive (a : App.t) :
  App._swap_srts (App._swap_srts a) = a /\
  App.en_srt_path (App._swap_srts a) = App.vi_srt_path a /\
  App.vi_srt_path (App._swap_srts a) = App.en_srt_path a /\
  App.video_path (App._swap_srts a) = App.video_path a /\
  App.out_dir (App._swap_srts a) = App.out_dir a /\
  same_settings a (App._swap_srts a).
Proof. destruct a. repeat split. Qed.

(** X17.  Swapping does not change whether the start action launches a
    run; the run launched after a swap has the two subtitle files
    exchanged and the same video, output path and options. *)
Theorem swap_then_start (W : WinPaths) (h : Host) (a : App.t) :
  (launches (App._start W h (App._swap_srts a)) <->
   launches (App._start W h a)) /\
  (forall j : App.job,
     snd (App._start W h a) = [App.thread_start j] ->
     snd (App._start W h (App._swap_srts a)) =
     [App.thread_start
        (App.mk_job (App.job_video j) (App.job_vi j) (App.job_en j)
           (App.job_out_path j) (App.job_mode j) (App.job_downscale j)
           (App.job_font_size j) (App.job_en_margin j)
           (App.job_vi_margin j))]).
Proof.
  assert (inputs_valid h (App._swap_srts a) <-> inputs_valid h a) as Hsw.
  { unfold inputs_valid. destruct a. cbn. tauto. }
  assert (settings_readable (App._swap_srts a) <-> settings_readable a) as Hse.
  { unfold settings_readable. destruct a. cbn. tauto. }
  split; [now rewrite !start_launches_iff, Hsw, Hse |].
  intros j Hj.
  assert (launches (App._start W h a)) as Hl
    by (exists j; rewrite Hj; now left).
  apply start_launches_iff in Hl as [Hv ([fs Hfs] & [em Hem] & [vm Hvm])].
  rewrite (start_launch W h a fs em vm Hv Hfs Hem Hvm) in Hj.
  injection Hj as <-.
  rewrite (start_launch W h (App._swap_srts a) fs em vm (proj2 Hsw Hv));
    [| destruct a; exact Hfs | destruct a; exact Hem | destruct a; exact Hvm].
  destruct a. reflexivity.
Qed.

Lemma swap_then_start_witness :
  let h := test_host ["/out"] ["/a/movie.mp4"; "/a/en.srt"; "/a/vi.srt"] in
  let a := App._on_multi_drop posix_like h (App.__init__ h)
             "/a/movie.mp4 /a/en.srt /a/vi.srt /out" in
  snd (App._start posix_like h a) =
    [App.thread_start
       (App.mk_job "/a/movie.mp4" "/a/en.srt" "/a/vi.srt"
          "/out/movie_dual_subbed.mp4" "Smaller" false 24 60 24)] /\
  snd (App._start posix_like h (App._swap_srts a)) =
  [App.thread_start
     (App.mk_job "/a/movie.mp4" "/a/vi.srt" "/a/en.srt"
        "/out/movie_dual_subbed.mp4" "Smaller" false 24 60 24)].
Proof.
  intros h a.
  assert (snd (App._start posix_like h a) =
          [App.thread_start
             (App.mk_job "/a/movie.mp4" "/a/en.srt" "/a/vi.srt"
                "/out/movie_dual_subbed.mp4" "Smaller" false 24 60 24)]) as Hs
    by (vm_compute; reflexivity).
  split; [exact Hs |].
  destruct (swap_then_start posix_like h a) as [_ H].
  exact (H _ Hs).
Defined.

(** X18.  The start action does not look at the progress bar: while a run
    is shown in progress it does what it would do otherwise, so a second
    run can be launched.  It changes the status line and the progress bar
    only, never a path or an option. *)
Theorem start_ignores_running (W : WinPaths) (h : Host) (a : App.t) :
  snd (App._start W h (App.progress_start a)) = snd (App._start W h a) /\
  same_inputs a (fst (App._start W h a)).
Proof.
  split; [| apply start_same_inputs].
  unfold App._start.
  cbn [App.video_path App.en_srt_path App.vi_srt_path App.out_dir
       App.font_size_var App.en_margin_var App.vi_margin_var
       App.mode App.downscale App.progress_start].
  destruct (forallb _ _); cbn [negb]; [| reflexivity].
  destruct (isdir h _); cbn [negb]; [| reflexivity].
  destruct (App.font_size_var a), (App.en_margin_var a), (App.vi_margin_var a);
    reflexivity.
Qed.

(** ** The output path *)

Section OutputPath.

















End OutputPath.



(** ** The progress reports *)

Section Progress.

Lemma any_char_app (f : ascii -> bool) (a b : string) :
  any_char f (a +:+ b) = any_char f a || any_char f b.
Proof.
  induction a as [|c a IH]; cbn [String.append any_char]; [reflexivity |].
  now rewrite IH, orb_assoc.
Qed.

(** Where no white-space character starts, the first byte is no blank of
    ASCII; an ASCII byte that is no blank starts none; a blank of ASCII is
    one of one byte. *)
Lemma blank_len_zero (c : ascii) (s : string) :
  PyStr.blank_len (String c s) = 0 -> PyStr.isspace c = false.
Proof.
  unfold PyStr.blank_len. destruct (PyStr.isspace c); [discriminate | reflexivity].
Qed.

Lemma blank_len_ascii (c : ascii) (s : string) :
  (128 <=? N_of_ascii c)%N = false -> PyStr.isspace c = false ->
  PyStr.blank_len (String c s) = 0.
Proof.
  intros Hc Hs. unfold PyStr.blank_len. rewrite Hs.
  clear Hs.
  destruct c as [[] [] [] [] [] [] [] []];
    first [reflexivity | vm_compute in Hc; discriminate Hc].
Qed.

Lemma blank_len_space (c : ascii) (s : string) :
  PyStr.isspace c = true -> PyStr.blank_len (String c s) = 1.
Proof. intros Hs. unfold PyStr.blank_len. now rewrite Hs. Qed.

Lemma words_go_tokens (s : string) (skip : nat) (cur t : string) :
  any_char PyStr.isspace cur = false ->
  In t (PyText.words_go skip cur s) ->
  t <> "" /\ any_char PyStr.isspace t = false.
Proof.
  revert skip cur; induction s as [|c s IH]; intros skip cur Hcur;
    cbn [PyText.words_go].
  - destruct (String.eqb_spec cur ""); [intros [] |].
    intros [<- | []]. now split.
  - destruct skip as [|k]; [| now apply IH].
    destruct (PyStr.blank_len (String c s)) as [|n] eqn:Hb.
    + apply IH. rewrite any_char_app. cbn [any_char].
      now rewrite Hcur, (blank_len_zero _ _ Hb).
    + destruct (String.eqb_spec cur "").
      * now apply IH.
      * intros [<- | Hin]; [now split | now apply (IH n "")].
Qed.

Lemma words_go_token (t rest cur : string) :
  ascii_only t = true -> any_char PyStr.isspace t = false ->
  PyText.words_go 0 cur (t +:+ rest) = PyText.words_go 0 (cur +:+ t) rest.
Proof.
  unfold ascii_only.
  revert cur; induction t as [|c t IH]; intros cur Ha Ht.
  - now rewrite str_app_nil_r.
  - cbn [any_char] in Ha, Ht. rewrite negb_true_iff in Ha.
    apply orb_false_iff in Ha as [Hc Ha].
    apply orb_false_iff in Ht as [Hs Ht].
    change (String c t +:+ rest) with (String c (t +:+ rest)).
    cbn [PyText.words_go]. rewrite (blank_len_ascii _ _ Hc Hs).
    rewrite IH; [| now rewrite Ha | exact Ht].
    now rewrite str_app_assoc.
Qed.

Lemma contains_unfold (k s : string) :
  PyStr.contains k s =
  PyStr.startswith s k ||
  match s with
  | EmptyString => false
  | String _ s' => PyStr.contains k s'
  end.
Proof. destruct s; reflexivity. Qed.

Lemma contains_app_marker (k a b : string) :
  PyStr.contains k (a +:+ k +:+ b) = true.
Proof.
  induction a as [|c a IH].
  - cbn [String.append]. rewrite contains_unfold, startswith_app. reflexivity.
  - cbn [String.append PyStr.contains]. rewrite IH. apply orb_true_r.
Qed.

(** Whether the marker starts at the head of [x] is decided by the first
    five characters. *)
Lemma startswith_marker_ext (c : ascii) (x y : string) :
  PyStr.startswith (String c x +:+ "time=" +:+ y) "time=" =
  PyStr.startswith (String c x +:+ "time") "time=".
Proof. destruct x as [|c2 [|c3 [|c4 [|c5 x]]]]; reflexivity. Qed.

Lemma split_go_scan (pre cur y : string) :
  PyStr.contains "time=" (pre +:+ "time") = false ->
  PyText.split_go "time=" 0 cur (pre +:+ "time=" +:+ y) =
  (cur +:+ pre) :: PyText.split_go "time=" 0 "" y.
Proof.
  revert cur; induction pre as [|c pre IH]; intros cur H.
  - rewrite str_app_nil_r. reflexivity.
  - rewrite contains_unfold in H. apply orb_false_iff in H as [Hs Hc].
    change (String c pre +:+ "time=" +:+ y)
      with (String c (pre +:+ "time=" +:+ y)).
    cbn [PyText.split_go].
    change (String c (pre +:+ "time=" +:+ y))
      with (String c pre +:+ "time=" +:+ y).
    rewrite startswith_marker_ext, Hs, (IH _ Hc).
    now rewrite str_app_assoc.
Qed.

Lemma split_go_head (sep s : string) (skip : nat) (cur : string) :
  exists (x : string) (more : list string),
    PyText.split_go sep skip cur s = (cur +:+ x) :: more.
Proof.
  revert skip cur; induction s as [|c s IH]; intros skip cur;
    cbn [PyText.split_go].
  - exists "", []. now rewrite str_app_nil_r.
  - destruct skip as [|k]; [| apply IH].
    destruct (PyStr.startswith (String c s) sep).
    + eexists "", _. now rewrite str_app_nil_r.
    + destruct (IH 0 (cur +:+ String c "")) as (x & more & ->).
      exists (String c x), more. now rewrite str_app_assoc.
Qed.

Lemma space_differs (x w : ascii) :
  PyStr.isspace x = false -> PyStr.isspace w = true -> Ascii.eqb x w = false.
Proof.
  intros Hx Hw. destruct (Ascii.eqb_spec x w) as [-> | _];
    [congruence | reflexivity].
Qed.

(** No marker starts inside a token without an equals sign that is
    followed by a blank. *)
Lemma no_marker_in_token (t rest : string) (w : ascii) :
  has_char "=" t = false -> PyStr.isspace w = true ->
  PyStr.startswith (t +:+ String w rest) "time=" = false.
Proof.
  intros Ht Hw.
  assert (Ascii.eqb "t" w = false) as Et by now apply space_differs.
  assert (Ascii.eqb "i" w = false) as Ei by now apply space_differs.
  assert (Ascii.eqb "m" w = false) as Em by now apply space_differs.
  assert (Ascii.eqb "e" w = false) as Ee by now apply space_differs.
  assert (Ascii.eqb "=" w = false) as Eq by now apply space_differs.
  destruct t as [|c1 [|c2 [|c3 [|c4 [|c5 t5]]]]];
    cbn [String.append PyStr.startswith];
    rewrite ?Et, ?Ei, ?Em, ?Ee, ?Eq; cbn [andb];
    rewrite ?andb_false_r; try reflexivity.
  cbn [has_char] in Ht. rewrite !orb_false_iff in Ht.
  destruct Ht as (_ & _ & _ & _ & H5 & _).
  rewrite (Ascii.eqb_sym "=" c5), H5. cbn [andb].
  now rewrite ?andb_false_r.
Qed.

Lemma split_go_token (t rest cur : string) (w : ascii) :
  has_char "=" t = false -> PyStr.isspace w = true ->
  PyText.split_go "time=" 0 cur (t +:+ String w rest) =
  PyText.split_go "time=" 0 (cur +:+ t +:+ String w "") rest.
Proof.
  intros Ht Hw. revert cur; induction t as [|c t IH]; intros cur.
  - cbn [String.append PyText.split_go].
    pose proof (no_marker_in_token "" rest w eq_refl Hw) as H.
    cbn [String.append] in H. now rewrite H.
  - pose proof (no_marker_in_token (String c t) rest w Ht Hw) as H.
    cbn [has_char] in Ht. apply orb_false_iff in Ht as [_ Ht].
    cbn [String.append] in *. cbn [PyText.split_go]. rewrite H.
    rewrite (IH Ht). now rewrite !str_app_assoc.
Qed.

Lemma progress_of_line_shape (line t : string) :
  progress_of_line line = Some t ->
  PyStr.contains "time=" line = true /\ t <> "" /\
  any_char PyStr.isspace t = false.
Proof.
  unfold progress_of_line.
  destruct (PyStr.contains "time=" line); [| discriminate].
  destruct (nth_error _ 1) as [seg|]; [| discriminate].
  destruct (PyText.words seg) as [|t' ws] eqn:Hw; [discriminate |].
  intros [= <-]. split; [reflexivity |].
  apply (words_go_tokens seg 0 "" t' eq_refl).
  unfold PyText.words in Hw. rewrite Hw. now left.
Qed.

End Progress.

(** X20.  Every progress report is a word: it is not empty and has no
    blank in it.  A line is reported at most once, and lines without the
    marker [time=] are passed over without a report. *)
Theorem progress_reports_are_words (lines : list string) :
  (forall t : string,
     In t (progress_reports lines) ->
     t <> "" /\ any_char PyStr.isspace t = false) /\
  length (progress_reports lines) <= length lines /\
  (forallb (fun line => negb (PyStr.contains "time=" line)) lines = true ->
   progress_reports lines = []).
Proof.
  induction lines as [|line lines (IH1 & IH2 & IH3)].
  - split; [intros t [] | split; [cbn; lia | reflexivity]].
  - cbn [progress_reports forallb length].
    destruct (progress_of_line line) as [t'|] eqn:Hl.
    + destruct (progress_of_line_shape _ _ Hl) as (Hc & Hne & Hsp).
      split; [intros t [<- | Hin]; [now split | now apply IH1] |].
      split; [cbn [length]; lia |].
      rewrite Hc. cbn. discriminate.
    + split; [exact IH1 | split; [lia |]].
      intros [_ H]%andb_true_iff. now apply IH3.
Qed.

Lemma progress_reports_are_words_witness :
  forallb (fun line => negb (PyStr.contains "time=" line))
    ["Stream #0:0: Video: h264"; ""; "timer= 3"] = true /\
  progress_reports ["Stream #0:0: Video: h264"; ""; "timer= 3"] = [].
Proof.
  split; [reflexivity |].
  apply (progress_reports_are_words ["Stream #0:0: Video: h264"; ""; "timer= 3"]).
  reflexivity.
Defined.

(** X21.  A line whose first marker [time=] is followed by a word of
    ASCII characters without an equals sign and then a blank is reported
    with exactly that word, whatever comes before the marker and after the
    blank. *)
Theorem progress_report_found (pre t rest : string) (w : ascii) :
  PyStr.contains "time=" (pre +:+ "time") = false ->
  t <> "" -> ascii_only t = true -> any_char PyStr.isspace t = false ->
  has_char "=" t = false -> PyStr.isspace w = true ->
  progress_of_line (pre +:+ "time=" +:+ t +:+ String w rest) = Some t.
Proof.
  intros Hpre Hne Ha Hsp Heq Hw. unfold progress_of_line.
  rewrite contains_app_marker. unfold PyText.split_str.
  rewrite (split_go_scan _ _ _ Hpre), (split_go_token _ _ _ _ Heq Hw).
  destruct (split_go_head "time=" rest 0 ("" +:+ t +:+ String w ""))
    as (x & more & ->).
  cbn [nth_error String.append]. unfold PyText.words.
  rewrite str_app_assoc, (words_go_token _ _ _ Ha Hsp).
  cbn [String.append PyText.words_go].
  rewrite (blank_len_space _ _ Hw).
  destruct (String.eqb_spec t ""); [congruence | reflexivity].
Qed.

Lemma progress_report_found_witness :
  (PyStr.contains "time=" ("frame=  240 fps= 60 size=   512kB " +:+ "time")
   = false /\ ascii_only "00:00:10.01" = true /\ PyStr.isspace " " = true) /\
  progress_of_line
    "frame=  240 fps= 60 size=   512kB time=00:00:10.01 bitrate= 419.0kbits/s"
  = Some "00:00:10.01".
Proof.
  split; [split; [| split]; reflexivity |].
  apply (progress_report_found "frame=  240 fps= 60 size=   512kB "
           "00:00:10.01" "bitrate= 419.0kbits/s" " ");
    first [reflexivity | discriminate].
Defined.

(** ** The worker *)

Section Worker.

Variable h : Host.

Lemma run_ffmpeg_job (j : App.job) :
  run_ffmpeg h (App.job_video j) (App.job_en j) (App.job_vi j)
    (App.job_out_path j) (App.job_mode j) (App.job_downscale j)
    (App.job_font_size j) (App.job_en_margin j) (App.job_vi_margin j) =
  match ffmpeg_path_guess h with
  | Ok f => popen h (job_cmd f j)
  | Raise e => Raise e
  end.
Proof. unfold run_ffmpeg, bind. destruct (ffmpeg_path_guess h); reflexivity. Qed.

Lemma same_inputs_refl (a : App.t) : same_inputs a a.
Proof. repeat split. Qed.

Lemma same_inputs_trans (a b c : App.t) :
  same_inputs a b -> same_inputs b c -> same_inputs a c.
Proof.
  unfold same_inputs.
  intros (H1 & H2 & H3 & H4 & H5 & H6 & H7 & H8 & H9)
         (G1 & G2 & G3 & G4 & G5 & G6 & G7 & G8 & G9).
  repeat split; congruence.
Qed.

Lemma status_updates_inputs (reports : list string) (a : App.t) :
  same_inputs a
    (fold_left (fun a ts => App.set_status_text ("Encoding… time=" +:+ ts) a)
       reports a).
Proof.
  revert a; induction reports as [|t reports IH]; intros a;
    [apply same_inputs_refl |].
  cbn [fold_left]. eapply same_inputs_trans; [| apply IH]. repeat split.
Qed.

Lemma finish_idle (ok : bool) (dur out_path msg : string) (a : App.t) :
  let r := Handlers._finish ok dur out_path msg a in
  Idle (fst r) /\ same_inputs a (fst r) /\
  exists d : Handlers.dialog, snd r = [d].
Proof.
  unfold Handlers._finish. destruct ok; cbn; repeat split; eauto.
Qed.

Lemma run_embed_unfold (stderr : list string) (dur : string) (j : App.job)
    (a : App.t) :
  Handlers._run_embed h stderr dur j a =
  let a' :=
    fold_left (fun a ts => App.set_status_text ("Encoding… time=" +:+ ts) a)
      (progress_reports stderr) a in
  match ffmpeg_path_guess h with
  | Raise e =>
      Handlers._finish false dur "" (Handlers.str_of_exception e) a'
  | Ok f =>
      match popen h (job_cmd f j) with
      | Raise e =>
          Handlers._finish false dur "" (Handlers.str_of_exception e) a'
      | Ok code =>
          Handlers._finish
            (Z.eqb code 0 && exists_ h (App.job_out_path j))
            dur (App.job_out_path j) "" a'
      end
  end.
Proof.
  unfold Handlers._run_embed. rewrite run_ffmpeg_job.
  destruct (ffmpeg_path_guess h); reflexivity.
Qed.

Lemma run_embed_idle (stderr : list string) (dur : string) (j : App.job)
    (a : App.t) :
  let r := Handlers._run_embed h stderr dur j a in
  Idle (fst r) /\ same_inputs a (fst r) /\
  exists d : Handlers.dialog, snd r = [d].
Proof.
  cbv zeta. rewrite run_embed_unfold. cbv zeta.
  set (a' := fold_left _ _ a).
  assert (same_inputs a a') as Ha by apply status_updates_inputs.
  assert (forall (ok : bool) (out msg : string),
            Idle (fst (Handlers._finish ok dur out msg a')) /\
            same_inputs a (fst (Handlers._finish ok dur out msg a')) /\
            exists d : Handlers.dialog,
              snd (Handlers._finish ok dur out msg a') = [d]) as Hf.
  { intros ok out msg.
    destruct (finish_idle ok dur out msg a') as (H1 & H2 & H3).
    split; [exact H1 | split; [| exact H3]].
    eapply same_inputs_trans; [exact Ha | exact H2]. }
  destruct (ffmpeg_path_guess h) as [f | e]; [| apply Hf].
  destruct (popen h (job_cmd f j)) as [code | e]; apply Hf.
Qed.

Lemma start_effects_inputs (W : WinPaths) (a b : App.t) :
  same_inputs a b -> snd (App._start W h a) = snd (App._start W h b).
Proof.
  destruct a, b. unfold same_inputs. cbn.
  intros (-> & -> & -> & -> & -> & -> & -> & -> & ->).
  unfold App._start.
  cbn [App.video_path App.en_srt_path App.vi_srt_path App.out_dir App.mode
       App.downscale App.font_size_var App.en_margin_var App.vi_margin_var].
  destruct (forallb _ _); cbn [negb]; [| reflexivity].
  destruct (isdir h _); cbn [negb]; [| reflexivity].
  repeat match goal with
         | |- context [match ?o with Some _ => _ | None => _ end] =>
             destruct o
         end; reflexivity.
Qed.

End Worker.


(** X23.  However a run ends, with the tool missing, a failed encode or
    success, the worker stops the progress bar, shows exactly one dialog,
    and leaves every path and option as it was. *)
Theorem run_embed_ends_idle (h : Host) (stderr : list string) (dur : string)
    (j : App.job) (a : App.t) :
  let r := Handlers._run_embed h stderr dur j a in
  Idle (fst r) /\ same_inputs a (fst r) /\
  exists d : Handlers.dialog, snd r = [d].
Proof. apply run_embed_idle. Qed.

(** X24.  The worker reports success exactly when the executable was
    found, the run of the child ended with the exit status 0 and the
    output file exists; the status line then names the output path. *)
Theorem run_embed_success_iff (h : Host) (stderr : list string) (dur : string)
    (j : App.job) (a : App.t) :
  let r := Handlers._run_embed h stderr dur j a in
  ((exists m : string, snd r = [Handlers.showinfo "Success" m]) <->
   (exists f : string,
      ffmpeg_path_guess h = Ok f /\ popen h (job_cmd f j) = Ok 0%Z /\
      exists_ h (App.job_out_path j) = true)) /\
  ((exists m : string, snd r = [Handlers.showinfo "Success" m]) ->
   App.status_text (fst r) =
   "Done in " +:+ dur +:+ "s → " +:+ App.job_out_path j).
Proof.
  cbv zeta. rewrite run_embed_unfold. cbv zeta.
  destruct (ffmpeg_path_guess h) as [f | e].
  - destruct (popen h (job_cmd f j)) as [code | e] eqn:Hp.
    + destruct (Z.eqb_spec code 0) as [Hc | Hc]; cbn [andb].
      * destruct (exists_ h (App.job_out_path j)) eqn:He.
        -- split; [| reflexivity].
           split; [intros _; exists f; subst code;
                     split; [reflexivity | split; [exact Hp | reflexivity]]
                  | intros _; eexists; reflexivity].
        -- split; [split |]; [intros [m Hm]; discriminate
                             | intros (f' & _ & _ & Hx); discriminate
                             | intros [m Hm]; discriminate].
      * split; [split |]; [intros [m Hm]; discriminate
                          | intros (f' & [= <-] & Hx & _); congruence
                          | intros [m Hm]; discriminate].
    + split; [split |]; [intros [m Hm]; discriminate
                        | intros (f' & [= <-] & Hx & _); congruence
                        | intros [m Hm]; discriminate].
  - split; [split |]; [intros [m Hm]; discriminate
                      | intros (f' & Hx & _); discriminate
                      | intros [m Hm]; discriminate].
Qed.

Lemma run_embed_success_iff_witness :
  let h :=
    {| which := fun _ => Some "/usr/bin/ffmpeg"; system := "Linux";
       exists_ := fun _ => true; isfile := fun _ => true;
       isdir := fun _ => true; home := "/"; popen := fun _ => Ok 0%Z |} in
  let j := App.mk_job "/a/m.mp4" "/a/e.srt" "/a/v.srt"
             "/out/m_dual_subbed.mp4" "Smaller" false 24 60 24 in
  let r := Handlers._run_embed h [] "1.5" j (App.__init__ h) in
  (exists m : string, snd r = [Handlers.showinfo "Success" m]) /\
  App.status_text (fst r) = "Done in 1.5s → /out/m_dual_subbed.mp4".
Proof.
  intros h j r.
  assert (exists m : string, snd r = [Handlers.showinfo "Success" m]) as Hs
    by (eexists; reflexivity).
  split; [exact Hs |].
  destruct (run_embed_success_iff h [] "1.5" j (App.__init__ h)) as [_ H].
  exact (H Hs).
Defined.

(** X25.  When the tool is missing the worker shows the tool-not-found
    message in the dialog and in the status line; when the child ran to
    its end but exited with another status than 0, or left no output file,
    it shows [Encoding failed.] and the status line [Failed.]; when the
    child could not be started or its error stream could not be read, it
    shows the text of the exception, and the same two texts when that is
    empty. *)
Theorem run_embed_failures (h : Host) (stderr : list string) (dur : string)
    (j : App.job) (a : App.t) :
  let r := Handlers._run_embed h stderr dur j a in
  (ffmpeg_path_guess h = Raise tool_not_found ->
   snd r = [Handlers.showerror "Error"
              "FFmpeg executable not found. Install it or add to PATH."] /\
   App.status_text (fst r) =
     "FFmpeg executable not found. Install it or add to PATH.") /\
  (forall (f : string) (code : Z),
     ffmpeg_path_guess h = Ok f -> popen h (job_cmd f j) = Ok code ->
     code <> 0%Z \/ exists_ h (App.job_out_path j) = false ->
     snd r = [Handlers.showerror "Error" "Encoding failed."] /\
     App.status_text (fst r) = "Failed.") /\
  (forall (f : string) (e : exception),
     ffmpeg_path_guess h = Ok f -> popen h (job_cmd f j) = Raise e ->
     let msg := Handlers.str_of_exception e in
     (msg <> "" ->
      snd r = [Handlers.showerror "Error" msg] /\
      App.status_text (fst r) = msg) /\
     (msg = "" ->
      snd r = [Handlers.showerror "Error" "Encoding failed."] /\
      App.status_text (fst r) = "Failed.")).
Proof.
  cbv zeta. rewrite run_embed_unfold. cbv zeta. split; [| split].
  - intros ->. split; reflexivity.
  - intros f code -> -> Hbad.
    assert (Z.eqb code 0 && exists_ h (App.job_out_path j) = false) as ->.
    { destruct Hbad as [Hc | He].
      - apply Z.eqb_neq in Hc. now rewrite Hc.
      - rewrite He. apply andb_false_r. }
    split; reflexivity.
  - intros f e -> ->. unfold Handlers._finish. split.
    + intros Hm%nonempty_true. rewrite Hm. split; reflexivity.
    + intros Hm%nonempty_false. rewrite Hm. split; reflexivity.
Qed.

Lemma run_embed_failures_witness :
  let h1 := test_host ["/out"] ["/a/m.mp4"] in
  let h2 :=
    {| which := fun _ => Some "/usr/bin/ffmpeg"; system := "Linux";
       exists_ := fun _ => true; isfile := fun _ => true;
       isdir := fun _ => true; home := "/"; popen := fun _ => Ok 1%Z |} in
  let h3 :=
    {| which := fun _ => Some "/usr/bin/ffmpeg"; system := "Linux";
       exists_ := fun _ => true; isfile := fun _ => true;
       isdir := fun _ => true; home := "/";
       popen := fun _ => Raise (OSError "[Errno 13] Permission denied") |} in
  let j := App.mk_job "/a/m.mp4" "/a/e.srt" "/a/v.srt"
             "/out/m_dual_subbed.mp4" "Smaller" false 24 60 24 in
  (ffmpeg_path_guess h1 = Raise tool_not_found /\
   App.status_text (fst (Handlers._run_embed h1 [] "0.1" j (App.__init__ h1)))
   = "FFmpeg executable not found. Install it or add to PATH.") /\
  (ffmpeg_path_guess h2 = Ok "/usr/bin/ffmpeg" /\
   App.status_text
     (fst (Handlers._run_embed h2 ["time=1 "] "0.1" j (App.__init__ h2)))
   = "Failed.") /\
  (ffmpeg_path_guess h3 = Ok "/usr/bin/ffmpeg" /\
   snd (Handlers._run_embed h3 [] "0.1" j (App.__init__ h3))
   = [Handlers.showerror "Error" "[Errno 13] Permission denied"]).
Proof.
  intros h1 h2 h3 j. split; [| split]; (split; [reflexivity |]).
  - destruct (run_embed_failures h1 [] "0.1" j (App.__init__ h1)) as [H _].
    apply H. reflexivity.
  - destruct (run_embed_failures h2 ["time=1 "] "0.1" j (App.__init__ h2))
      as (_ & H & _).
    apply (H "/usr/bin/ffmpeg" 1%Z); [reflexivity | reflexivity |].
    left; discriminate.
  - destruct (run_embed_failures h3 [] "0.1" j (App.__init__ h3))
      as (_ & _ & H).
    destruct (H "/usr/bin/ffmpeg" (OSError "[Errno 13] Permission denied")
                eq_refl eq_refl) as [H' _].
    apply H'. discriminate.
Defined.

(** X26.  After the start action and the run it launched, the interface
    is idle again with the paths and options it had, and the start action
    would launch the same job once more. *)
Theorem start_run_cycle (W : WinPaths) (h : Host) (stderr : list string)
    (dur : string) (a : App.t) (j : App.job) :
  snd (App._start W h a) = [App.thread_start j] ->
  let a1 := fst (App._start W h a) in
  let a2 := fst (Handlers._run_embed h stderr dur j a1) in
  App.progress_running a1 = true /\
  Idle a2 /\ same_inputs a a2 /\
  snd (App._start W h a2) = [App.thread_start j].
Proof.
  intros Hj a1 a2.
  assert (launches (App._start W h a)) as Hl
    by (exists j; rewrite Hj; now left).
  apply start_launches_iff in Hl as [Hv ([fs Hfs] & [em Hem] & [vm Hvm])].
  assert (App.progress_running a1 = true) as Hrun
    by (subst a1; now rewrite (start_launch W h a fs em vm Hv Hfs Hem Hvm)).
  destruct (run_embed_idle h stderr dur j a1) as (Hidle & Hin & _).
  fold a2 in Hidle, Hin.
  assert (same_inputs a a2) as Hsame
    by (eapply same_inputs_trans; [apply start_same_inputs | exact Hin]).
  split; [exact Hrun | split; [exact Hidle | split; [exact Hsame |]]].
  now rewrite <- (start_effects_inputs h W _ _ Hsame).
Qed.

Lemma start_run_cycle_witness :
  let h := test_host ["/out"] ["/a/movie.mp4"; "/a/en.srt"; "/a/vi.srt"] in
  let a := App._on_multi_drop posix_like h (App.__init__ h)
             "/a/movie.mp4 /a/en.srt /a/vi.srt /out" in
  let j := App.mk_job "/a/movie.mp4" "/a/en.srt" "/a/vi.srt"
             "/out/movie_dual_subbed.mp4" "Smaller" false 24 60 24 in
  snd (App._start posix_like h a) = [App.thread_start j] /\
  Idle (fst (Handlers._run_embed h [] "0.0" j (fst (App._start posix_like h a)))).
Proof.
  intros h a j.
  assert (snd (App._start posix_like h a) = [App.thread_start j]) as Hj
    by (vm_compute; reflexivity).
  split; [exact Hj |].
  destruct (start_run_cycle posix_like h [] "0.0" a j Hj) as (_ & H & _).
  exact H.
Defined.

(** ** More on the command line *)

(** X27.  Whatever the mode, the encoder arguments are three flag and
    value pairs for the video and two for the audio, the preset is medium
    and the audio codec is AAC; the video codec is libx265 exactly when the
    lower-case mode is [smallest], and libx264 otherwise. *)
Theorem build_encode_args_codecs (m : string) :
  length (fst (build_encode_args m)) = 6 /\
  length (snd (build_encode_args m)) = 4 /\
  adjacent "-preset" "medium" (fst (build_encode_args m)) /\
  adjacent "-c:a" "aac" (snd (build_encode_args m)) /\
  (adjacent "-c:v" "libx265" (fst (build_encode_args m)) <->
   PyStr.lower m = "smallest") /\
  (adjacent "-c:v" "libx264" (fst (build_encode_args m)) <->
   PyStr.lower m <> "smallest").
Proof.
  assert (forall (x y : string) (l : list string),
            x <> "-c:v" ->
            l = ["-c:v"; x; "-preset"; "medium"; "-crf"; y] ->
            forall z, adjacent "-c:v" z l <-> z = x) as Hcv.
  { intros x y l Hx -> z. split.
    - intros (pre & post & H).
      destruct pre as [|a pre]; [now simplify_eq/= |].
      destruct pre as [|b pre]; [simplify_eq/=; congruence |].
      do 5 (destruct pre as [|? pre]; [simplify_eq/= |]).
      simplify_eq/=.
    - intros ->. exists [], ["-preset"; "medium"; "-crf"; y]. reflexivity. }
  rewrite build_encode_args_cases.
  destruct (String.eqb_spec (PyStr.lower m) "smallest") as [He | He].
  - cbn [fst snd smallest_args length].
    split; [reflexivity | split; [reflexivity |]].
    split; [exists ["-c:v"; "libx265"], ["-crf"; "28"]; reflexivity |].
    split; [exists [], ["-b:a"; "128k"]; reflexivity |].
    rewrite !(Hcv "libx265" "28" _ ltac:(discriminate) eq_refl).
    split; [tauto | split; [discriminate | tauto]].
  - destruct (String.eqb (PyStr.lower m) "smaller");
      cbn [fst snd smaller_args normal_args length].
    + split; [reflexivity | split; [reflexivity |]].
      split; [exists ["-c:v"; "libx264"], ["-crf"; "24"]; reflexivity |].
      split; [exists [], ["-b:a"; "160k"]; reflexivity |].
      rewrite !(Hcv "libx264" "24" _ ltac:(discriminate) eq_refl).
      split; [split; [discriminate | tauto] | tauto].
    + split; [reflexivity | split; [reflexivity |]].
      split; [exists ["-c:v"; "libx264"], ["-crf"; "18"]; reflexivity |].
      split; [exists [], ["-b:a"; "192k"]; reflexivity |].
      rewrite !(Hcv "libx264" "18" _ ltac:(discriminate) eq_refl).
      split; [split; [discriminate | tauto] | tauto].
Qed.

(** X28.  The command line always has 23 arguments: the video path is the
    one argument after [-i] and the whole filter graph the one argument
    after [-filter_complex], whatever characters the paths contain. *)
Theorem run_ffmpeg_cmd_layout (ffmpeg video en_srt vi_srt out_path mode : string)
    (ds : bool) (fs enm vim : Z) :
  let cmd :=
    run_ffmpeg_cmd ffmpeg video en_srt vi_srt out_path mode ds fs enm vim in
  length cmd = 23 /\
  cmd !! 2%nat = Some "-i" /\ cmd !! 3%nat = Some video /\
  cmd !! 4%nat = Some "-filter_complex" /\
  cmd !! 5%nat = Some (build_filter_complex en_srt vi_srt ds fs enm vim) /\
  cmd !! 22%nat = Some out_path.
Proof.
  cbv zeta. rewrite run_ffmpeg_cmd_shape, build_encode_args_cases.
  destruct (String.eqb (PyStr.lower mode) "smallest");
    [| destruct (String.eqb (PyStr.lower mode) "smaller")];
    repeat split.
Qed.


(** ** The English slot *)

(** The handlers other than the zone drop, the swap, and the picker and
    the drop of the English row leave the English slot alone. *)
Lemma handle_english_slot (W : WinPaths) (h : Host) (act : action)
    (a : App.t) :
  App.en_srt_path a <> "" ->
  App.en_srt_path (handle W h act a) <> App.en_srt_path a ->
  act = swap_srts \/
  (exists fp : string, act = browse_file fp Handlers.en_srt_var) \/
  (exists event_data : string, act = entry_drop event_data Handlers.en_srt_var).
Proof.
  intros Hen Hch. destruct act as [d | d | d v | fp v | d | | | stderr dur j].
  - exfalso. apply Hch. cbn [handle]. unfold App._on_multi_drop.
    now apply route_paths_keep_english.
  - exfalso. apply Hch. cbn [handle]. unfold Handlers._on_outdir_drop.
    destruct (App._parse_dnd_list d) as [|p rest]; [reflexivity |].
    destruct (isdir h p); reflexivity.
  - destruct v; [exfalso | right; right; now exists d | exfalso];
      apply Hch; cbn [handle]; unfold Handlers._on_entry_drop;
      destruct (App._parse_dnd_list d); reflexivity.
  - destruct v; [exfalso | right; left; now exists fp | exfalso];
      apply Hch; cbn [handle]; unfold Handlers._browse_file;
      destruct (App.nonempty fp); reflexivity.
  - exfalso. apply Hch. cbn [handle]. unfold Handlers._choose_out_dir.
    destruct (App.nonempty d); reflexivity.
  - now left.
  - exfalso. apply Hch. cbn [handle].
    destruct (start_same_inputs W h a) as (_ & <- & _). reflexivity.
  - exfalso. apply Hch. cbn [handle].
    destruct (run_embed_idle h stderr dur j a) as (_ & (_ & <- & _) & _).
    reflexivity.
Qed.

(** C10, as stated, fails in its last part: a file dropped on the English
    row replaces an English slot that is not empty, and that is neither the
    swap action nor a manual picker. *)
Lemma english_slot_replaced_by_row_drop :
  let a := App.set_en_srt_path "/a/old.srt" (App.__init__ (test_host [] [])) in
  let a' := Handlers._on_entry_drop a "/b/new.srt" Handlers.en_srt_var in
  App.en_srt_path a = "/a/old.srt" /\ App.en_srt_path a' = "/b/new.srt" /\
  App.en_srt_path a' <> App.en_srt_path a.
Proof. split; [reflexivity | split; [reflexivity | discriminate]]. Qed.

(** C10, amended.  A drop on the zone never replaces an English slot that
    is not empty: for every list of dropped paths, and for every drop
    payload, the slot holds afterwards what it held before.  Of the
    handlers of the window, only the swap action, the file picker of the
    English row and a drop on the English row change such a slot: the swap
    puts the content of the Vietnamese slot there, the picker the file
    chosen, the drop the first path dropped. *)
Theorem multi_drop_keeps_english (W : WinPaths) (h : Host) (a : App.t) :
  App.en_srt_path a <> "" ->
  (forall paths : list string,
     App.en_srt_path (App.route_paths W h a paths) = App.en_srt_path a) /\
  (forall event_data : string,
     App.en_srt_path (App._on_multi_drop W h a event_data) = App.en_srt_path a) /\
  (forall act : action,
     App.en_srt_path (handle W h act a) <> App.en_srt_path a ->
     act = swap_srts \/
     (exists fp : string, act = browse_file fp Handlers.en_srt_var) \/
     (exists event_data : string,
        act = entry_drop event_data Handlers.en_srt_var)) /\
  App.en_srt_path (handle W h swap_srts a) = App.vi_srt_path a /\
  (forall fp : string,
     fp <> "" ->
     App.en_srt_path (handle W h (browse_file fp Handlers.en_srt_var) a) = fp) /\
  (forall (event_data p : string) (rest : list string),
     App._parse_dnd_list event_data = p :: rest ->
     App.en_srt_path (handle W h (entry_drop event_data Handlers.en_srt_var) a)
     = p).
Proof.
  intros Hen. split; [| split; [| split; [| split; [| split]]]].
  - intros paths. now apply route_paths_keep_english.
  - intros data. unfold App._on_multi_drop.
    now apply route_paths_keep_english.
  - intros act. now apply handle_english_slot.
  - reflexivity.
  - intros fp Hfp%nonempty_true. cbn [handle]. unfold Handlers._browse_file.
    now rewrite Hfp.
  - intros d p rest Hd. cbn [handle]. unfold Handlers._on_entry_drop.
    now rewrite Hd.
Qed.

Lemma multi_drop_keeps_english_witness :
  let h := test_host ["/out"] [] in
  let a := App.set_en_srt_path "/a/first.srt" (App.__init__ h) in
  App.en_srt_path a <> "" /\
  App.en_srt_path
    (App._on_multi_drop posix_like h a
       "/b/en.srt {/b/english subs.srt} /b/m.mkv /out")
  = "/a/first.srt" /\
  App.en_srt_path (handle posix_like h (browse_file "/b/en.srt" Handlers.en_srt_var) a)
  = "/b/en.srt".
Proof.
  intros h a.
  assert (App.en_srt_path a <> "") as Hen by discriminate.
  split; [exact Hen |].
  destruct (multi_drop_keeps_english posix_like h a Hen)
    as (_ & H & _ & _ & Hb & _).
  split; [rewrite H; reflexivity | apply Hb; discriminate].
Defined.
